(** * Values validation against chart schemas (pkg/chartutil/jsonschema.go)

    A shallow embedding of [ValidateAgainstSchema],
    [ValidateAgainstSingleSchema] and [validateUsingNewValidator], and the
    properties of the dialect router and of the tree walk proved on it.

    The Go code is glue around four external packages (sigs.k8s.io/yaml,
    encoding/json with net/url, xeipuuv/gojsonschema and
    santhosh-tekuri/jsonschema/v6).  They are not part of the repository:
    the embedding takes them as a record of functions, [Libraries], and
    every definition below is executable once a record is supplied. *)

From Stdlib Require Import Strings.Ascii Strings.Byte.
From stdpp Require Import base option list strings gmap pretty.

Local Open Scope string_scope.
Local Open Scope list_scope.
Set Warnings "-register-all".

(** ** Data *)

(** [[]byte] *)
Abbreviation bytes := (list Byte.byte).

#[global] Instance byte_eq_dec : EqDecision Byte.byte := Byte.byte_eq_dec.

(** [[]byte("...")] *)
Definition bytes_of (s : string) : bytes := String.list_byte_of_string s.

(** The line feed of the Go literals ["%s:\n"] and ["- %s\n"]. *)
Definition LF : string := String (Ascii.ascii_of_nat 10) EmptyString.

(** A dynamic Go value held in an [interface{}]: what a values tree is made
    of.  [VNil] is the nil interface (a YAML null). *)
Inductive value : Type :=
| VNil
| VBool (b : bool)
| VInt64 (n : Z)
| VString (s : string)
| VSlice (l : list value)
| VMap (m : gmap string value).

(** [map[string]interface{}], also known as [chartutil.Values].  Reading a
    key of a nil Go map gives the same answer as reading the empty map. *)
Abbreviation Values := (gmap string value).

(** The name the Go runtime prints for the dynamic type of a value. *)
Definition dynamic_type (v : value) : string :=
  match v with
  | VNil => "nil"
  | VBool _ => "bool"
  | VInt64 _ => "int64"
  | VString _ => "string"
  | VSlice _ => "[]interface {}"
  | VMap _ => "map[string]interface {}"
  end.

(** Go's [error] values that occur in this file, by where they are made:
    [errors.New] of github.com/pkg/errors, [fmt.Errorf], and the errors the
    external packages hand back.  [Error] is the interface's method. *)
Inductive error : Type :=
| errors_New (msg : string)
| fmt_Errorf (msg : string)
| library_error (pkg : string) (msg : string).

Definition Error (e : error) : string :=
  match e with
  | errors_New msg => msg
  | fmt_Errorf msg => msg
  | library_error _ msg => msg
  end.

(** The payload of a Go panic: the runtime's error for a failed type
    assertion [x.(map[string]interface{})], or whatever an external package
    panicked with (kept as its rendering under the [%s] verb). *)
Inductive panic_value : Type :=
| TypeAssertionError (concrete : value)
| library_panic (description : string).

(** [fmt.Sprintf("%s", r)] for a recovered payload. *)
Definition Sprintf_s (r : panic_value) : string :=
  match r with
  | TypeAssertionError concrete =>
      "interface conversion: interface {} is " +:+ dynamic_type concrete
        +:+ ", not map[string]interface {}"
  | library_panic description => description
  end.

(** A Go pair [(x, err)] where the code reads [x] only when [err == nil]. *)
Inductive result (A : Type) : Type :=
| Ok (a : A)
| Err (err : error).
Arguments Ok {A} a.
Arguments Err {A} err.

(** What a call does: it returns, or it panics. *)
Inductive outcome (A : Type) : Type :=
| Ret (a : A)
| Panic (r : panic_value).
Arguments Ret {A} a.
Arguments Panic {A} r.

(** ** The external packages *)

(** [net/url]'s [*URL], as far as the router reads it: the [Host] field and
    the [EscapedPath()] method. *)
Record URL : Type := mkURL { Host : string; EscapedPath : string }.

(** What [json.Unmarshal(schemaJSON, &partialSchema)] does to the one-field
    struct [partialSchema], which starts as the zero value.  The decoder
    checks the whole input for well-formedness before it stores anything;
    a member of the wrong type is skipped, decoding goes on, and the first
    such error is returned at the end. *)
Inductive unmarshal_outcome : Type :=
| Decoded (Schema : string)
    (* err == nil; the field holds the member "$schema", or "" without one *)
| SyntaxError (err : error)
    (* the bytes are not JSON: the struct is untouched *)
| UnmarshalTypeError (Schema : string) (err : error).
    (* JSON, but not an object with a string "$schema" throughout *)

(** [gojsonschema.Result]: [Valid()] and [Errors()], each error already
    rendered by [%s], which calls its [String()] method. *)
Record Result : Type := mkResult { Valid : bool; Errors : list string }.

Record Libraries : Type := mkLibraries {
  (* sigs.k8s.io/yaml *)
  yaml_Marshal : Values -> outcome (result bytes);
  yaml_YAMLToJSON : bytes -> outcome (result bytes);
  (* encoding/json and net/url: total and free of panics *)
  json_Unmarshal : bytes -> unmarshal_outcome;
  url_Parse : string -> result URL;
  (* github.com/xeipuuv/gojsonschema *)
  gojsonschema_Validate : bytes -> bytes -> outcome (result Result);
  (* github.com/santhosh-tekuri/jsonschema/v6 *)
  document : Type;
  Compiler : Type;
  CompiledSchema : Type;
  newvalidator_UnmarshalJSON : bytes -> outcome (result document);
  newvalidator_NewCompiler : Compiler;
  Compiler_AddResource : Compiler -> string -> document -> outcome (result Compiler);
  Compiler_Compile : Compiler -> string -> outcome (result CompiledSchema);
  Schema_Validate : CompiledSchema -> document -> outcome (option error)
}.

(** ** Effects: the calls made, and panics *)

(** A call into one of the third-party packages. *)
Inductive event : Type :=
| call_yaml_Marshal
| call_yaml_YAMLToJSON (yamlData : bytes)
| call_gojsonschema_Validate (schemaJSON valuesJSON : bytes)
| call_newvalidator_UnmarshalJSON (data : bytes)
| call_newvalidator_AddResource (url : string)
| call_newvalidator_Compile (url : string)
| call_newvalidator_Validate.

(** A computation: the calls it made, in order, and how it ended. *)
Definition M (A : Type) : Type := list event * outcome A.

Definition ret {A} (a : A) : M A := ([], Ret a).

Definition bind {A B} (m : M A) (k : A -> M B) : M B :=
  match m with
  | (t, Ret a) => let '(t', o) := k a in (t ++ t', o)
  | (t, Panic r) => (t, Panic r)
  end.

Definition call {A} (ev : event) (o : outcome A) : M A := ([ev], o).

(** [defer func() { if r := recover(); r != nil { reterr = handler r } }()] *)
Definition defer_recover {A} (handler : panic_value -> A) (body : M A) : M A :=
  match body with
  | (t, Panic r) => (t, Ret (handler r))
  | (t, Ret a) => (t, Ret a)
  end.

(** [M] is a monad in stdpp's sense, so that the translation can be written
    with [x ← m; k]. *)
#[global] Instance M_ret : MRet M := @ret.
#[global] Instance M_bind : MBind M := fun A B k m => bind m k.

(** ** The chart tree *)

(** Modelled from the spec: the type [chart.Chart] and its methods [Name()]
    and [Dependencies()] are declared in pkg/chart, which is not among the
    sources.  A bundle is a named node with an optional raw schema document
    and an ordered collection of child bundles.  For the field [Schema],
    [None] is the nil slice and [Some []] an empty one. *)
Inductive Chart : Type :=
  mkChart { Name : string; Schema : option bytes; Dependencies : list Chart }.

(** ** The code *)

Section Code.
Context (L : Libraries).

(** The field [partialSchema.Schema] after
    [_ = json.Unmarshal(schemaJSON, &partialSchema)]: the error is dropped. *)
Definition partialSchema_Schema (schemaJSON : bytes) : string :=
  match json_Unmarshal L schemaJSON with
  | Decoded Schema => Schema
  | SyntaxError _ => ""
  | UnmarshalTypeError Schema _ => Schema
  end.

(** The [switch url.EscapedPath()] with its three cases. *)
Definition is_legacy_path (path : string) : bool :=
  String.eqb path "/draft-04/schema"
  || String.eqb path "/draft-06/schema"
  || String.eqb path "/draft-07/schema".

Definition values_schema_url : string := "file:///values.schema.json".

Definition validateUsingNewValidator (valuesJSON schemaJSON : bytes)
  : M (bool * option error) :=
  let Schema := partialSchema_Schema schemaJSON in
  if String.eqb Schema "" then mret (false, None) else
  match url_Parse L Schema with
  | Err _ => mret (false, None)
  | Ok url =>
    if String.eqb (Host url) "json-schema.org" && is_legacy_path (EscapedPath url)
    then mret (false, None) else
    r ← call (call_newvalidator_UnmarshalJSON schemaJSON)
             (newvalidator_UnmarshalJSON L schemaJSON);
    match r with
    | Err err => mret (true, Some err)
    | Ok schema =>
    r ← call (call_newvalidator_UnmarshalJSON valuesJSON)
             (newvalidator_UnmarshalJSON L valuesJSON);
    match r with
    | Err err => mret (true, Some err)
    | Ok values =>
    let compiler := newvalidator_NewCompiler L in
    r ← call (call_newvalidator_AddResource values_schema_url)
             (Compiler_AddResource L compiler values_schema_url schema);
    match r with
    | Err err => mret (true, Some err)
    | Ok compiler =>
    r ← call (call_newvalidator_Compile values_schema_url)
             (Compiler_Compile L compiler values_schema_url);
    match r with
    | Err err => mret (true, Some err)
    | Ok validator =>
    err ← call call_newvalidator_Validate (Schema_Validate L validator values);
    mret (true, err)
    end end end end
  end.

(** The loop [for _, desc := range result.Errors()] writing ["- %s\n"]. *)
Definition write_violations (descs : list string) : string :=
  foldl (fun sb desc => sb +:+ ("- " +:+ desc +:+ LF)) "" descs.

(** The body of [ValidateAgainstSingleSchema], under the deferred function. *)
Definition ValidateAgainstSingleSchema_body (values : Values) (schemaJSON : bytes)
  : M (option error) :=
  r ← call call_yaml_Marshal (yaml_Marshal L values);
  match r with
  | Err err => mret (Some err)
  | Ok valuesData =>
  r ← call (call_yaml_YAMLToJSON valuesData) (yaml_YAMLToJSON L valuesData);
  match r with
  | Err err => mret (Some err)
  | Ok valuesJSON =>
  let valuesJSON :=
    if decide (valuesJSON = bytes_of "null") then bytes_of "{}" else valuesJSON in
  '(processed, err) ← validateUsingNewValidator valuesJSON schemaJSON;
  if processed : bool then mret err else
  r ← call (call_gojsonschema_Validate schemaJSON valuesJSON)
           (gojsonschema_Validate L schemaJSON valuesJSON);
  match r with
  | Err err => mret (Some err)
  | Ok result =>
    if negb (Valid result)
    then mret (Some (errors_New (write_violations (Errors result))))
    else mret None
  end end end.

Definition ValidateAgainstSingleSchema (values : Values) (schemaJSON : bytes)
  : M (option error) :=
  defer_recover
    (fun r => Some (fmt_Errorf ("unable to validate schema: " +:+ Sprintf_s r)))
    (ValidateAgainstSingleSchema_body values schemaJSON).

(** [values[name].(map[string]interface{})]: the one-result form of the type
    assertion, which panics unless the entry is a map.  A missing key reads
    as the nil interface. *)
Definition assert_map (values : Values) (name : string) : M Values :=
  match values !! name with
  | Some (VMap m) => mret m
  | Some v => ([], Panic (TypeAssertionError v))
  | None => ([], Panic (TypeAssertionError VNil))
  end.

(** The loop [for _, subchart := range chrt.Dependencies()], threading the
    [strings.Builder]; [validate] is the recursive call. *)
Fixpoint range_Dependencies (validate : Chart -> Values -> M (option error))
    (values : Values) (deps : list Chart) (sb : string) : M string :=
  match deps with
  | [] => mret sb
  | subchart :: deps =>
    subchartValues ← assert_map values (Name subchart);
    err ← validate subchart subchartValues;
    range_Dependencies validate values deps
      (match err with Some err => sb +:+ Error err | None => sb end)
  end.

Fixpoint ValidateAgainstSchema (chrt : Chart) (values : Values) : M (option error) :=
  let sb := "" in
  sb ← match Schema chrt with
       | Some schema =>
         err ← ValidateAgainstSingleSchema values schema;
         match err with
         | Some err => mret (sb +:+ (Name chrt +:+ ":" +:+ LF) +:+ Error err)
         | None => mret sb
         end
       | None => mret sb
       end;
  sb ← range_Dependencies ValidateAgainstSchema values (Dependencies chrt) sb;
  if (0 <? String.length sb)%nat then mret (Some (errors_New sb)) else mret None.

End Code.

(** ** The vocabulary of the specification *)

(** The two validation engines. *)
Inductive Engine : Type := LegacyEngine | ModernEngine.

#[global] Instance Engine_eq_dec : EqDecision Engine.
Proof. solve_decision. Defined.

(** The engine a call belongs to; the YAML conversion belongs to neither. *)
Definition engine_of (ev : event) : option Engine :=
  match ev with
  | call_yaml_Marshal | call_yaml_YAMLToJSON _ => None
  | call_gojsonschema_Validate _ _ => Some LegacyEngine
  | call_newvalidator_UnmarshalJSON _
  | call_newvalidator_AddResource _
  | call_newvalidator_Compile _
  | call_newvalidator_Validate => Some ModernEngine
  end.

(** An engine runs in a trace when one of the calls is a call into it. *)
Definition runs (e : Engine) (t : list event) : bool :=
  existsb (fun ev => bool_decide (engine_of ev = Some e)) t.

(** The three paths of the backward-compatibility carve-out. *)
Definition legacy_paths : list string :=
  ["/draft-04/schema"; "/draft-06/schema"; "/draft-07/schema"].

(** The dialect a schema document declares: its ["$schema"] member as the
    decoder delivers it.  A document without the member, or one that is not
    JSON at all, declares none, which reads as the empty string. *)
Definition declared_dialect (L : Libraries) (schemaJSON : bytes) : string :=
  match json_Unmarshal L schemaJSON with
  | Decoded dialect => dialect
  | SyntaxError _ => ""
  | UnmarshalTypeError dialect _ => dialect
  end.

(** The dialect rule in the words of the specification: absent or not a URI,
    or host json-schema.org with one of the three paths, is the legacy
    engine; any other declared dialect is the modern engine. *)
Definition dialect_rule (L : Libraries) (schemaJSON : bytes) : Engine :=
  let declared := declared_dialect L schemaJSON in
  if decide (declared = "") then LegacyEngine else
  match url_Parse L declared with
  | Err _ => LegacyEngine
  | Ok u =>
    if decide (Host u = "json-schema.org" ∧ EscapedPath u ∈ legacy_paths)
    then LegacyEngine else ModernEngine
  end.

(** The values document handed to the engines, given what the conversion
    produced: the canonicalization rule. *)
Definition canonical (valuesJSON : bytes) : bytes :=
  if decide (valuesJSON = bytes_of "null") then bytes_of "{}" else valuesJSON.

(** The value subtree scoped to a child, when the parent's values bind the
    child's name to a map. *)
Definition scoped (values : Values) (subchart : Chart) : option Values :=
  match values !! Name subchart with
  | Some (VMap m) => Some m
  | _ => None
  end.

(** The invariant of the data model: every child's name, at every level, is
    bound to a map in its parent's values. *)
Fixpoint aligned (chrt : Chart) (values : Values) : bool :=
  forallb (fun subchart =>
             match scoped values subchart with
             | Some m => aligned subchart m
             | None => false
             end) (Dependencies chrt).

(** No node of the tree carries a schema document. *)
Fixpoint schemaless (chrt : Chart) : bool :=
  match Schema chrt with
  | None => forallb schemaless (Dependencies chrt)
  | Some _ => false
  end.

(** The section of a node in the report: its name and the text of the error
    its own check returned; nothing when it has no schema or passes. *)
Definition own_section (L : Libraries) (chrt : Chart) (values : Values)
  : list (string * string) :=
  match Schema chrt with
  | Some schema =>
    match (ValidateAgainstSingleSchema L values schema).2 with
    | Ret (Some err) => [(Name chrt, Error err)]
    | _ => []
    end
  | None => []
  end.

(** The sections of all failing nodes, parent first, then the children in
    the order of [Dependencies], each with its own subtree. *)
Fixpoint sections (L : Libraries) (chrt : Chart) (values : Values)
  : list (string * string) :=
  own_section L chrt values ++
  flat_map (fun subchart =>
              match scoped values subchart with
              | Some m => sections L subchart m
              | None => []
              end) (Dependencies chrt).

(** The calls of a node's own check. *)
Definition own_calls (L : Libraries) (chrt : Chart) (values : Values) : list event :=
  match Schema chrt with
  | Some schema => (ValidateAgainstSingleSchema L values schema).1
  | None => []
  end.

(** The calls of the checks of all nodes that carry a schema, in the same
    traversal order. *)
Fixpoint checks (L : Libraries) (chrt : Chart) (values : Values) : list event :=
  own_calls L chrt values ++
  flat_map (fun subchart =>
              match scoped values subchart with
              | Some m => checks L subchart m
              | None => []
              end) (Dependencies chrt).

(** One block of the rendered report: [<bundle-name>:], a line feed, and the
    violation text. *)
Definition block (section : string * string) : string :=
  section.1 +:+ ":" +:+ LF +:+ section.2.

Definition render (secs : list (string * string)) : string :=
  foldr String.append "" (map block secs).

(** The aggregate outcome: success without sections, otherwise one error
    whose text is the rendered report. *)
Definition report (secs : list (string * string)) : option error :=
  match secs with
  | [] => None
  | _ => Some (errors_New (render secs))
  end.

(** One violation of the legacy engine on its own line, with its bullet. *)
Definition bullet (desc : string) : string := "- " +:+ desc +:+ LF.

(** A panic of the failed type assertion, carrying a value that is no map. *)
Definition assertion_panic {A} (m : M A) : Prop :=
  ∃ t v, m = (t, Panic (TypeAssertionError v)) ∧ ∀ sub, v ≠ VMap sub.


(** Every call of a trace is a call into the modern engine. *)
Definition modern_only (t : list event) : Prop :=
  Forall (fun ev => engine_of ev = Some ModernEngine) t.

(** The calls of a trace that name a resource all name the fixed one, and
    the schema is compiled only right after it was registered. *)
Fixpoint registered_before_compiled (t : list event) : bool :=
  match t with
  | call_newvalidator_AddResource u :: call_newvalidator_Compile u' :: t =>
      String.eqb u values_schema_url && String.eqb u' values_schema_url
      && registered_before_compiled t
  | call_newvalidator_AddResource u :: t =>
      String.eqb u values_schema_url && registered_before_compiled t
  | call_newvalidator_Compile _ :: _ => false
  | _ :: t => registered_before_compiled t
  | [] => true
  end.


(** The error the deferred function of [ValidateAgainstSingleSchema] makes of
    a recovered panic. *)
Definition recovered (r : panic_value) : error :=
  fmt_Errorf ("unable to validate schema: " +:+ Sprintf_s r).

(** What a node's check returns on the legacy path, given how the call of
    [gojsonschema.Validate] ended. *)
Definition legacy_verdict (o : outcome (result Result)) : option error :=
  match o with
  | Ret (Ok res) =>
    if Valid res then None
    else Some (errors_New (foldr String.append "" (map bullet (Errors res))))
  | Ret (Err err) => Some err
  | Panic r => Some (recovered r)
  end.

(** What a node's check returns on the modern path, given how
    [validateUsingNewValidator] ended. *)
Definition modern_verdict (o : outcome (bool * option error)) : option error :=
  match o with
  | Ret (_, err) => err
  | Panic r => Some (recovered r)
  end.

(** The engine the dialect rule selects, run on a schema and a canonical
    values document: the calls made and what the node's check returns. *)
Definition engine_run (L : Libraries) (schemaJSON valuesJSON : bytes)
  : list event * option error :=
  match dialect_rule L schemaJSON with
  | LegacyEngine =>
    ([call_gojsonschema_Validate schemaJSON valuesJSON],
     legacy_verdict (gojsonschema_Validate L schemaJSON valuesJSON))
  | ModernEngine =>
    ((validateUsingNewValidator L valuesJSON schemaJSON).1,
     modern_verdict (validateUsingNewValidator L valuesJSON schemaJSON).2)
  end.

(** A schema document the modern engine cannot parse, register or compile:
    the calls made up to the failure, and the error of the failing call. *)
Definition schema_failure (L : Libraries) (valuesJSON schemaJSON : bytes)
  : option (list event * error) :=
  match newvalidator_UnmarshalJSON L schemaJSON with
  | Ret (Err err) => Some ([call_newvalidator_UnmarshalJSON schemaJSON], err)
  | Ret (Ok schema) =>
    match newvalidator_UnmarshalJSON L valuesJSON with
    | Ret (Ok _) =>
      match Compiler_AddResource L (newvalidator_NewCompiler L) values_schema_url schema with
      | Ret (Err err) =>
        Some ([call_newvalidator_UnmarshalJSON schemaJSON;
               call_newvalidator_UnmarshalJSON valuesJSON;
               call_newvalidator_AddResource values_schema_url], err)
      | Ret (Ok compiler) =>
        match Compiler_Compile L compiler values_schema_url with
        | Ret (Err err) =>
          Some ([call_newvalidator_UnmarshalJSON schemaJSON;
                 call_newvalidator_UnmarshalJSON valuesJSON;
                 call_newvalidator_AddResource values_schema_url;
                 call_newvalidator_Compile values_schema_url], err)
        | _ => None
        end
      | Panic _ => None
      end
    | _ => None
    end
  | Panic _ => None
  end.


(** ** Further vocabulary: conversions, counting, and swapping a package *)

(** What it is for an engine to validate a values document against a schema
    document, in the words of the specification: the calls made and what
    the node's check returns.  The legacy engine loads both as byte
    documents and runs the validation in one call, whose violations are
    collected one per line.  The modern engine parses the schema bytes and
    the values bytes, registers the schema under the fixed identifier,
    compiles it, and validates the parsed values with the compiled schema:
    the first step that fails gives the error, otherwise the result is what
    the validation says.  A panic of a step is reported as [recovered]. *)
Definition engine_validates (L : Libraries) (e : Engine)
    (schemaJSON valuesJSON : bytes) : list event * option error :=
  match e with
  | LegacyEngine =>
    ([call_gojsonschema_Validate schemaJSON valuesJSON],
     legacy_verdict (gojsonschema_Validate L schemaJSON valuesJSON))
  | ModernEngine =>
    let parse_schema := call_newvalidator_UnmarshalJSON schemaJSON in
    let parse_values := call_newvalidator_UnmarshalJSON valuesJSON in
    let register := call_newvalidator_AddResource "file:///values.schema.json" in
    let compile := call_newvalidator_Compile "file:///values.schema.json" in
    match newvalidator_UnmarshalJSON L schemaJSON with
    | Panic r => ([parse_schema], Some (recovered r))
    | Ret (Err err) => ([parse_schema], Some err)
    | Ret (Ok schema) =>
    match newvalidator_UnmarshalJSON L valuesJSON with
    | Panic r => ([parse_schema; parse_values], Some (recovered r))
    | Ret (Err err) => ([parse_schema; parse_values], Some err)
    | Ret (Ok values) =>
    match Compiler_AddResource L (newvalidator_NewCompiler L)
            "file:///values.schema.json" schema with
    | Panic r => ([parse_schema; parse_values; register], Some (recovered r))
    | Ret (Err err) => ([parse_schema; parse_values; register], Some err)
    | Ret (Ok compiler) =>
    match Compiler_Compile L compiler "file:///values.schema.json" with
    | Panic r =>
      ([parse_schema; parse_values; register; compile], Some (recovered r))
    | Ret (Err err) => ([parse_schema; parse_values; register; compile], Some err)
    | Ret (Ok validator) =>
    match Schema_Validate L validator values with
    | Panic r =>
      ([parse_schema; parse_values; register; compile; call_newvalidator_Validate],
       Some (recovered r))
    | Ret verdict =>
      ([parse_schema; parse_values; register; compile; call_newvalidator_Validate],
       verdict)
    end end end end end
  end.

(** A values tree the YAML package cannot convert: the calls made up to the
    failure, and the error of the failing call. *)
Definition conversion_failure (L : Libraries) (values : Values)
  : option (list event * error) :=
  match yaml_Marshal L values with
  | Ret (Err err) => Some ([call_yaml_Marshal], err)
  | Ret (Ok valuesData) =>
    match yaml_YAMLToJSON L valuesData with
    | Ret (Err err) =>
      Some ([call_yaml_Marshal; call_yaml_YAMLToJSON valuesData], err)
    | _ => None
    end
  | Panic _ => None
  end.

(** The number of nodes of a tree that carry a schema document, an empty one
    included: the test is [chrt.Schema != nil]. *)
Fixpoint schema_nodes (chrt : Chart) : nat :=
  match Schema chrt with Some _ => 1 | None => 0 end
  + sum_list (map schema_nodes (Dependencies chrt)).

(** The number of calls of [yaml.Marshal] in a trace. *)
Definition is_Marshal (ev : event) : bool :=
  match ev with call_yaml_Marshal => true | _ => false end.

Definition marshals (t : list event) : nat :=
  sum_list (map (fun ev => if is_Marshal ev then 1 else 0) t).

(** The children before the first one in traversal order that does not find
    its value subtree are all in order, together with their subtrees. *)
Definition all_aligned (values : Values) (deps : list Chart) : bool :=
  forallb (fun subchart =>
             match scoped values subchart with
             | Some m => aligned subchart m
             | None => false
             end) deps.

(** The same packages with another legacy engine. *)
Definition with_gojsonschema (L : Libraries)
    (validate : bytes -> bytes -> outcome (result Result)) : Libraries := {|
  yaml_Marshal := yaml_Marshal L;
  yaml_YAMLToJSON := yaml_YAMLToJSON L;
  json_Unmarshal := json_Unmarshal L;
  url_Parse := url_Parse L;
  gojsonschema_Validate := validate;
  document := document L;
  Compiler := Compiler L;
  CompiledSchema := CompiledSchema L;
  newvalidator_UnmarshalJSON := newvalidator_UnmarshalJSON L;
  newvalidator_NewCompiler := newvalidator_NewCompiler L;
  Compiler_AddResource := Compiler_AddResource L;
  Compiler_Compile := Compiler_Compile L;
  Schema_Validate := Schema_Validate L
|}.

(** The same packages with the modern engine of another record. *)
Definition with_newvalidator (L modern : Libraries) : Libraries := {|
  yaml_Marshal := yaml_Marshal L;
  yaml_YAMLToJSON := yaml_YAMLToJSON L;
  json_Unmarshal := json_Unmarshal L;
  url_Parse := url_Parse L;
  gojsonschema_Validate := gojsonschema_Validate L;
  document := document modern;
  Compiler := Compiler modern;
  CompiledSchema := CompiledSchema modern;
  newvalidator_UnmarshalJSON := newvalidator_UnmarshalJSON modern;
  newvalidator_NewCompiler := newvalidator_NewCompiler modern;
  Compiler_AddResource := Compiler_AddResource modern;
  Compiler_Compile := Compiler_Compile modern;
  Schema_Validate := Schema_Validate modern
|}.

(** The same packages with another YAML conversion. *)
Definition with_yaml (L : Libraries)
    (marshal : Values -> outcome (result bytes))
    (toJSON : bytes -> outcome (result bytes)) : Libraries := {|
  yaml_Marshal := marshal;
  yaml_YAMLToJSON := toJSON;
  json_Unmarshal := json_Unmarshal L;
  url_Parse := url_Parse L;
  gojsonschema_Validate := gojsonschema_Validate L;
  document := document L;
  Compiler := Compiler L;
  CompiledSchema := CompiledSchema L;
  newvalidator_UnmarshalJSON := newvalidator_UnmarshalJSON L;
  newvalidator_NewCompiler := newvalidator_NewCompiler L;
  Compiler_AddResource := Compiler_AddResource L;
  Compiler_Compile := Compiler_Compile L;
  Schema_Validate := Schema_Validate L
|}.

(** ** A small stand-in for the external packages

    Enough of each package to run the code on concrete charts: documents are
    JSON text (which is also YAML), the decoder finds the ["$schema"] member
    by its key, and both engines know [required] and [type]. *)

Module Demo.

Definition DQ : string := String (Ascii.ascii_of_nat 34) "".
Definition quoted (s : string) : string := DQ +:+ s +:+ DQ.

(** The text after, and before, the first occurrence of [pat]. *)
Definition after (pat s : string) : option string :=
  match String.index 0 pat s with
  | Some i => Some (String.substring (i + String.length pat) (String.length s) s)
  | None => None
  end.

Definition before (pat s : string) : string :=
  match String.index 0 pat s with
  | Some i => String.substring 0 i s
  | None => s
  end.

Definition contains (pat s : string) : bool := bool_decide (is_Some (String.index 0 pat s)).

Definition text (b : bytes) : string := String.string_of_list_byte b.

Fixpoint to_json (v : value) : string :=
  match v with
  | VNil => "null"
  | VBool b => if b then "true" else "false"
  | VInt64 n => pretty n
  | VString s => quoted s
  | VSlice l => "[" +:+ String.concat "," (map to_json l) +:+ "]"
  | VMap m =>
    "{" +:+ String.concat ","
      (map (fun kv => quoted kv.1 +:+ ":" +:+ kv.2) (map_to_list (to_json <$> m)))
    +:+ "}"
  end.

(** An empty map stands for Go's nil map, which marshals to [null]. *)
Definition Marshal (values : Values) : outcome (result bytes) :=
  Ret (Ok (bytes_of ((if decide (size values = 0) then "null"
                      else to_json (VMap values)) +:+ LF))).

Definition YAMLToJSON (yamlData : bytes) : outcome (result bytes) :=
  Ret (Ok (bytes_of (before LF (text yamlData)))).

Definition Unmarshal (schemaJSON : bytes) : unmarshal_outcome :=
  let s := text schemaJSON in
  if negb (String.prefix "{" s)
  then SyntaxError (library_error "encoding/json" "invalid character looking for beginning of value")
  else match after (quoted "$schema" +:+ ":") s with
       | None => Decoded ""
       | Some rest =>
         if String.prefix DQ rest
         then Decoded (before DQ (String.substring 1 (String.length rest) rest))
         else UnmarshalTypeError ""
                (library_error "encoding/json" "cannot unmarshal into Go struct field .$schema of type string")
       end.

Definition Parse (rawURL : string) : result URL :=
  if String.prefix ":" rawURL
  then Err (library_error "net/url" "missing protocol scheme")
  else match after "://" rawURL with
       | Some rest =>
         let rest := before "#" (before "?" rest) in
         let host := before "/" rest in
         Ok (mkURL host (String.substring (String.length host) (String.length rest) rest))
       | None => Ok (mkURL "" (before "#" (before "?" rawURL)))
       end.

(** A document without what is nested in its members. *)
Fixpoint outer (depth : nat) (s : string) : string :=
  match s with
  | "" => ""
  | String c s =>
    if Ascii.eqb c "{"%char || Ascii.eqb c "["%char
    then (if depth =? 0 then String c else id) (outer (S depth) s)
    else if Ascii.eqb c "}"%char || Ascii.eqb c "]"%char
    then (if depth =? 1 then String c else id) (outer (pred depth) s)
    else (if depth <=? 1 then String c else id) (outer depth s)
  end%nat.

(** The violations of a document under a schema: a missing required
    property, and a document that is no object where one is asked for. *)
Definition violations (schema doc : string) : list string :=
  match after (quoted "required" +:+ ":[" +:+ DQ) schema with
  | Some rest =>
    let key := before DQ rest in
    if contains (quoted key +:+ ":") (outer 0 doc) then []
    else ["(root): " +:+ key +:+ " is required"]
  | None => []
  end ++
  (if contains (quoted "type" +:+ ":" +:+ quoted "object") schema && negb (String.prefix "{" doc)
   then ["(root): Invalid type. Expected: object, given: " +:+ doc] else []).

(** The legacy engine; it panics on a schema with a ["$ref"]. *)
Definition Validate (schemaJSON valuesJSON : bytes) : outcome (result Result) :=
  let schema := text schemaJSON in
  if negb (String.prefix "{" schema)
  then Ret (Err (library_error "gojsonschema" "invalid character looking for beginning of value"))
  else if contains (quoted "$ref") schema
  then Panic (library_panic "runtime error: invalid memory address or nil pointer dereference")
  else let vs := violations schema (text valuesJSON) in
       Ret (Ok (mkResult (bool_decide (vs = [])) vs)).

(** The modern engine: documents are their text, a compiler is the list of
    its resources, a compiled schema is its text.  Compilation rejects a
    [type] that is no string. *)
Definition UnmarshalJSON (data : bytes) : outcome (result string) :=
  let s := text data in
  if String.prefix "{" s || String.eqb s "null" then Ret (Ok s)
  else Ret (Err (library_error "jsonschema/v6" "invalid character looking for beginning of value")).

Definition AddResource (c : list (string * string)) (url : string) (doc : string)
  : outcome (result (list (string * string))) :=
  if bool_decide (url ∈ c.*1)
  then Ret (Err (library_error "jsonschema/v6" ("resource already exists: " +:+ url)))
  else Ret (Ok ((url, doc) :: c)).

Definition Compile (c : list (string * string)) (url : string) : outcome (result string) :=
  match list_find (fun r => r.1 = url) c with
  | Some (_, (_, doc)) =>
    if contains (quoted "type" +:+ ":") doc && negb (contains (quoted "type" +:+ ":" +:+ DQ) doc)
    then Ret (Err (library_error "jsonschema/v6"
                     ("jsonschema: metaschema validation failed for " +:+ url)))
    else Ret (Ok doc)
  | None => Ret (Err (library_error "jsonschema/v6" ("failing loading " +:+ url)))
  end.

Definition ValidateV6 (schema doc : string) : outcome (option error) :=
  match violations schema doc with
  | [] => Ret None
  | vs => Ret (Some (library_error "jsonschema/v6"
                       ("jsonschema validation failed with " +:+ String.concat "; " vs)))
  end.

Definition libs : Libraries := {|
  yaml_Marshal := Marshal;
  yaml_YAMLToJSON := YAMLToJSON;
  json_Unmarshal := Unmarshal;
  url_Parse := Parse;
  gojsonschema_Validate := Validate;
  document := string;
  Compiler := list (string * string);
  CompiledSchema := string;
  newvalidator_UnmarshalJSON := UnmarshalJSON;
  newvalidator_NewCompiler := [];
  Compiler_AddResource := AddResource;
  Compiler_Compile := Compile;
  Schema_Validate := ValidateV6
|}.

(** Schema documents. *)
Definition member (key val : string) : string := quoted key +:+ ":" +:+ val.

(** [{"type":"object","required":["a"]}] *)
Definition schema_required_a : bytes :=
  bytes_of ("{" +:+ member "type" (quoted "object") +:+ ","
            +:+ member "required" ("[" +:+ quoted "a" +:+ "]") +:+ "}").

(** [{"type":"object"}] *)
Definition schema_object : bytes :=
  bytes_of ("{" +:+ member "type" (quoted "object") +:+ "}").

(** [{"$schema":"http://json-schema.org/draft-07/schema#","required":["a"]}] *)
Definition schema_draft07 : bytes :=
  bytes_of ("{" +:+ member "$schema" (quoted "http://json-schema.org/draft-07/schema#") +:+ ","
            +:+ member "required" ("[" +:+ quoted "a" +:+ "]") +:+ "}").

(** [{"$schema":"https://json-schema.org/draft/2020-12/schema","required":["a"]}] *)
Definition schema_2020_12 : bytes :=
  bytes_of ("{" +:+ member "$schema" (quoted "https://json-schema.org/draft/2020-12/schema") +:+ ","
            +:+ member "required" ("[" +:+ quoted "a" +:+ "]") +:+ "}").

(** [{"$schema":"https://json-schema.org/draft/2020-12/schema","type":1}] *)
Definition schema_2020_12_invalid : bytes :=
  bytes_of ("{" +:+ member "$schema" (quoted "https://json-schema.org/draft/2020-12/schema") +:+ ","
            +:+ member "type" "1" +:+ "}").

(** [{"$ref":"#"}] *)
Definition schema_ref : bytes :=
  bytes_of ("{" +:+ member "$ref" (quoted "#") +:+ "}").

(** Not JSON at all. *)
Definition schema_garbage : bytes := bytes_of "type: object".

(** Values documents and what the conversion makes of them. *)
Definition values_a : Values := {[ "a" := VInt64 1 ]}.
Definition yaml_a : bytes := bytes_of ("{" +:+ member "a" "1" +:+ "}" +:+ LF).
Definition json_a : bytes := bytes_of ("{" +:+ member "a" "1" +:+ "}").
Definition yaml_null : bytes := bytes_of ("null" +:+ LF).

(** A parent with two children; the parent and the first child lack the
    required property, the second child has it. *)
Definition c1 : Chart := mkChart "c1" (Some schema_draft07) [].
Definition c2 : Chart := mkChart "c2" (Some schema_2020_12) [].
Definition parent : Chart := mkChart "parent" (Some schema_required_a) [c1; c2].
Definition values_c1 : Values := {[ "b" := VInt64 1 ]}.
Definition values_parent : Values :=
  {[ "c1" := VMap values_c1; "c2" := VMap values_a ]}.

Definition text_c1 : string :=
  "c1:" +:+ LF +:+ "- (root): a is required" +:+ LF.
Definition text_parent : string :=
  "parent:" +:+ LF +:+ "- (root): a is required" +:+ LF +:+ text_c1.

(** A chart with one dependency, with and without schema documents. *)
Definition app : Chart := mkChart "app" None [mkChart "db" (Some schema_object) []].
Definition bare : Chart := mkChart "app" None [mkChart "db" None []].
Definition values_app : Values := {[ "db" := VMap ∅; "replicas" := VInt64 3 ]}.
Definition values_db_string : Values := {[ "db" := VString "postgres" ]}.

(** The errors of the stand-in packages that the examples meet. *)
Definition metaschema_error : error :=
  library_error "jsonschema/v6"
    "jsonschema: metaschema validation failed for file:///values.schema.json".
Definition syntax_error : error :=
  library_error "encoding/json" "invalid character looking for beginning of value".

(** Variants of the stand-in: a [yaml.Marshal] that refuses an empty key, a
    [yaml.YAMLToJSON] that hands back text that is no JSON, and engines that
    panic whenever they are called. *)
Definition marshal_error : error :=
  library_error "sigs.k8s.io/yaml" "error marshaling into JSON".
Definition strict_yaml : Libraries :=
  with_yaml libs
    (fun values => if decide (is_Some (values !! "")) then Ret (Err marshal_error)
                   else Marshal values)
    YAMLToJSON.
Definition values_empty_key : Values := {[ "" := VInt64 1 ]}.

Definition odd_yaml : Libraries :=
  with_yaml libs Marshal (fun _ => Ret (Ok (bytes_of "- 1"))).

Definition no_legacy : Libraries :=
  with_gojsonschema libs (fun _ _ => Panic (library_panic "legacy engine called")).

Definition panicking : Libraries := {|
  yaml_Marshal := Marshal;
  yaml_YAMLToJSON := YAMLToJSON;
  json_Unmarshal := Unmarshal;
  url_Parse := Parse;
  gojsonschema_Validate := fun _ _ => Panic (library_panic "legacy engine called");
  document := unit;
  Compiler := unit;
  CompiledSchema := unit;
  newvalidator_UnmarshalJSON := fun _ => Panic (library_panic "modern engine called");
  newvalidator_NewCompiler := tt;
  Compiler_AddResource := fun _ _ _ => Panic (library_panic "modern engine called");
  Compiler_Compile := fun _ _ => Panic (library_panic "modern engine called");
  Schema_Validate := fun _ _ => Panic (library_panic "modern engine called")
|}.

(** A chart whose second dependency has no entry in the values. *)
Definition stack : Chart :=
  mkChart "stack" (Some schema_required_a) [c1; mkChart "cache" None []; c2].
Definition values_stack : Values := {[ "c1" := VMap values_c1; "c2" := VMap values_a ]}.

(** A chart on whose own schema the legacy engine of the stand-in panics. *)
Definition faulty : Chart := mkChart "faulty" (Some schema_ref) [c1].
Definition values_faulty : Values := {[ "a" := VInt64 1; "c1" := VMap values_c1 ]}.
Definition nil_dereference : panic_value :=
  library_panic "runtime error: invalid memory address or nil pointer dereference".
Definition not_json : error :=
  library_error "jsonschema/v6" "invalid character looking for beginning of value".

(** Values of the parent that bind only the first child, and a chart with a
    dependency whose own values the stricter stand-in refuses to marshal. *)
Definition values_only_c1 : Values := {[ "c1" := VMap values_c1 ]}.
Definition guarded : Chart := mkChart "guarded" (Some schema_object) [c1].
Definition values_guarded : Values :=
  {[ "" := VInt64 1; "c1" := VMap values_c1 ]}.
Definition a_is_required : error :=
  library_error "jsonschema/v6"
    "jsonschema validation failed with (root): a is required".

End Demo.

(** ** Strings, and the induction principle of the tree *)

(** Closes [ev ∉ t] for an explicit trace that does not hold [ev]. *)
Ltac not_in_trace :=
  repeat (apply not_elem_of_cons; split; [discriminate|]); apply not_elem_of_nil.


Lemma string_app_assoc (a b c : string) : (a +:+ b) +:+ c = a +:+ (b +:+ c).
Proof.
  induction a as [|x a IH]; [reflexivity|].
  change (String x ((a +:+ b) +:+ c) = String x (a +:+ (b +:+ c))).
  by rewrite IH.
Qed.

Lemma string_app_nil_r (a : string) : a +:+ "" = a.
Proof.
  induction a as [|x a IH]; [reflexivity|].
  change (String x (a +:+ "") = String x a). by rewrite IH.
Qed.

Lemma string_length_app (a b : string) :
  String.length (a +:+ b) = String.length a + String.length b.
Proof.
  induction a as [|x a IH]; [reflexivity|].
  change (S (String.length (a +:+ b)) = S (String.length a + String.length b)).
  by rewrite IH.
Qed.

Lemma render_app (s1 s2 : list (string * string)) :
  render (s1 ++ s2) = render s1 +:+ render s2.
Proof.
  unfold render. induction s1 as [|b s1 IH]; [reflexivity|].
  cbn [app map foldr]. by rewrite IH, string_app_assoc.
Qed.

Lemma render_nonempty (secs : list (string * string)) :
  secs ≠ [] → (0 <? String.length (render secs))%nat = true.
Proof.
  destruct secs as [|[name text] secs]; [done|intros _].
  apply Nat.ltb_lt. unfold render, block. cbn [map foldr fst snd].
  rewrite !string_length_app. cbn. lia.
Qed.

Lemma report_text (secs : list (string * string)) :
  from_option Error "" (report secs) = render secs.
Proof. by destruct secs. Qed.

Lemma Chart_ind' (P : Chart → Prop)
  (step : ∀ name schema deps, Forall P deps → P (mkChart name schema deps)) :
  ∀ chrt, P chrt.
Proof.
  fix IH 1. intros [name schema deps]. apply step.
  induction deps as [|d deps IHdeps]; constructor; [apply IH|exact IHdeps].
Qed.

(** ** Laws of the monad *)

Lemma mbind_Ret {A B} (t : list event) (a : A) (k : A → M B) :
  ((t, Ret a) ≫= k) = (t ++ (k a).1, (k a).2).
Proof. unfold mbind, M_bind, bind. by destruct (k a). Qed.

Lemma mbind_Panic {A B} (t : list event) (r : panic_value) (k : A → M B) :
  ((t, Panic r) ≫= k) = (t, Panic r).
Proof. done. Qed.

Lemma mbind_mret {A B} (a : A) (k : A → M B) : (mret a ≫= k) = k a.
Proof. unfold mret, M_ret, ret. rewrite mbind_Ret. by destruct (k a). Qed.

Lemma mbind_call_Ret {A B} (ev : event) (a : A) (k : A → M B) :
  (call ev (Ret a) ≫= k) = (ev :: (k a).1, (k a).2).
Proof. unfold call. by rewrite mbind_Ret. Qed.

Lemma mbind_call_Panic {A B} (ev : event) (r : panic_value) (k : A → M B) :
  (call ev (Panic r) ≫= k) = ([ev], Panic r).
Proof. done. Qed.

(** ** The single check always returns *)

Lemma defer_recover_returns {A} (handler : panic_value → A) (body : M A) :
  ∃ a, defer_recover handler body = (body.1, Ret a).
Proof. destruct body as [t [a|r]]; eauto. Qed.

Lemma ValidateAgainstSingleSchema_returns L values schemaJSON :
  ∃ err, ValidateAgainstSingleSchema L values schemaJSON =
         ((ValidateAgainstSingleSchema L values schemaJSON).1, Ret err).
Proof.
  unfold ValidateAgainstSingleSchema.
  destruct (defer_recover_returns
    (fun r => Some (fmt_Errorf ("unable to validate schema: " +:+ Sprintf_s r)))
    (ValidateAgainstSingleSchema_body L values schemaJSON)) as [a Ha].
  exists a. by rewrite Ha.
Qed.

(** ** The tree walk on aligned trees *)

Lemma ValidateAgainstSchema_eq L chrt values :
  ValidateAgainstSchema L chrt values =
  (sb ← match Schema chrt with
        | Some schema =>
          err ← ValidateAgainstSingleSchema L values schema;
          match err with
          | Some err => mret ("" +:+ (Name chrt +:+ ":" +:+ LF) +:+ Error err)
          | None => mret ""
          end
        | None => mret ""
        end;
   sb ← range_Dependencies (ValidateAgainstSchema L) values (Dependencies chrt) sb;
   if (0 <? String.length sb)%nat then mret (Some (errors_New sb)) else mret None).
Proof. by destruct chrt. Qed.

Lemma aligned_eq chrt values :
  aligned chrt values =
  forallb (fun subchart =>
             match scoped values subchart with
             | Some m => aligned subchart m
             | None => false
             end) (Dependencies chrt).
Proof. by destruct chrt. Qed.

Lemma sections_eq L chrt values :
  sections L chrt values =
  own_section L chrt values ++
  flat_map (fun subchart =>
              match scoped values subchart with
              | Some m => sections L subchart m
              | None => []
              end) (Dependencies chrt).
Proof. by destruct chrt. Qed.

Lemma checks_eq L chrt values :
  checks L chrt values =
  own_calls L chrt values ++
  flat_map (fun subchart =>
              match scoped values subchart with
              | Some m => checks L subchart m
              | None => []
              end) (Dependencies chrt).
Proof. by destruct chrt. Qed.

Lemma assert_map_scoped values subchart m :
  scoped values subchart = Some m → assert_map values (Name subchart) = ([], Ret m).
Proof.
  unfold scoped, assert_map. destruct (values !! Name subchart) as [[]|]; naive_solver.
Qed.

Lemma assert_map_not_scoped values subchart :
  scoped values subchart = None →
  ∃ v, assert_map values (Name subchart) = ([], Panic (TypeAssertionError v))
       ∧ ∀ m, v ≠ VMap m.
Proof.
  unfold scoped, assert_map.
  destruct (values !! Name subchart) as [[]|]; intros; simplify_eq; eauto.
Qed.

Lemma append_report sb (secs : list (string * string)) :
  match report secs with Some err => sb +:+ Error err | None => sb end
  = sb +:+ render secs.
Proof.
  destruct secs; cbn [report Error]; [|done].
  by rewrite string_app_nil_r.
Qed.

Lemma own_check_eq L chrt values :
  match Schema chrt with
  | Some schema =>
    err ← ValidateAgainstSingleSchema L values schema;
    match err with
    | Some err => mret ("" +:+ (Name chrt +:+ ":" +:+ LF) +:+ Error err)
    | None => mret ""
    end
  | None => mret ""
  end = (own_calls L chrt values, Ret (render (own_section L chrt values))).
Proof.
  unfold own_calls, own_section. destruct (Schema chrt) as [schema|]; [|done].
  destruct (ValidateAgainstSingleSchema_returns L values schema) as [err ->].
  rewrite mbind_Ret.
  destruct err as [err|]; cbn; rewrite app_nil_r; [|done].
  unfold render, block. cbn. by rewrite string_app_nil_r, !string_app_assoc.
Qed.

Lemma range_Dependencies_aligned L values deps sb :
  Forall (fun subchart => ∀ m, aligned subchart m = true →
            ValidateAgainstSchema L subchart m =
            (checks L subchart m, Ret (report (sections L subchart m)))) deps →
  forallb (fun subchart =>
             match scoped values subchart with
             | Some m => aligned subchart m
             | None => false
             end) deps = true →
  range_Dependencies (ValidateAgainstSchema L) values deps sb =
  (flat_map (fun subchart =>
               match scoped values subchart with
               | Some m => checks L subchart m
               | None => []
               end) deps,
   Ret (sb +:+ render
          (flat_map (fun subchart =>
                       match scoped values subchart with
                       | Some m => sections L subchart m
                       | None => []
                       end) deps))).
Proof.
  intros IH. revert sb.
  induction IH as [|subchart deps Hsub _ IHdeps]; intros sb Hal.
  - cbn. by rewrite string_app_nil_r.
  - cbn [forallb] in Hal. apply andb_true_iff in Hal as [Hc Hdeps].
    destruct (scoped values subchart) as [m|] eqn:Hm; [|done].
    cbn [range_Dependencies flat_map]. rewrite Hm.
    rewrite (assert_map_scoped _ _ _ Hm), mbind_Ret, (Hsub m Hc), mbind_Ret.
    rewrite append_report, (IHdeps _ Hdeps).
    cbn. by rewrite render_app, string_app_assoc.
Qed.

Lemma ValidateAgainstSchema_aligned L chrt :
  ∀ values, aligned chrt values = true →
  ValidateAgainstSchema L chrt values =
  (checks L chrt values, Ret (report (sections L chrt values))).
Proof.
  induction chrt as [name schema deps IH] using Chart_ind'. intros values Hal.
  rewrite ValidateAgainstSchema_eq, own_check_eq, sections_eq, checks_eq.
  rewrite aligned_eq in Hal. cbn [Dependencies] in *.
  rewrite mbind_Ret, (range_Dependencies_aligned L values deps _ IH Hal), mbind_Ret.
  rewrite <- render_app.
  set (secs := own_section L _ values ++ _).
  destruct secs as [|sec rest] eqn:Hsecs; [by rewrite !app_nil_r|].
  rewrite render_nonempty by done. cbn. by rewrite !app_nil_r.
Qed.

(** ** The tree walk on trees that break the invariant *)

Lemma range_Dependencies_misaligned L values deps sb :
  Forall (fun subchart => ∀ m, aligned subchart m = false →
            assertion_panic (ValidateAgainstSchema L subchart m)) deps →
  forallb (fun subchart =>
             match scoped values subchart with
             | Some m => aligned subchart m
             | None => false
             end) deps = false →
  assertion_panic (range_Dependencies (ValidateAgainstSchema L) values deps sb).
Proof.
  intros IH. revert sb.
  induction IH as [|subchart deps Hsub _ IHdeps]; intros sb Hal; [done|].
  cbn [forallb range_Dependencies] in *.
  destruct (scoped values subchart) as [m|] eqn:Hm.
  - rewrite (assert_map_scoped _ _ _ Hm), mbind_Ret.
    destruct (aligned subchart m) eqn:Hc.
    + rewrite (ValidateAgainstSchema_aligned L subchart m Hc), mbind_Ret.
      destruct (IHdeps (match report (sections L subchart m) with
                        | Some err => sb +:+ Error err
                        | None => sb
                        end) Hal) as (t & v & -> & Hv).
      by exists ([] ++ checks L subchart m ++ t), v.
    + destruct (Hsub m Hc) as (t & v & -> & Hv).
      rewrite mbind_Panic. by exists ([] ++ t), v.
  - destruct (assert_map_not_scoped _ _ Hm) as (v & -> & Hv).
    rewrite mbind_Panic. by exists [], v.
Qed.

Lemma ValidateAgainstSchema_misaligned L chrt :
  ∀ values, aligned chrt values = false →
  assertion_panic (ValidateAgainstSchema L chrt values).
Proof.
  induction chrt as [name schema deps IH] using Chart_ind'. intros values Hal.
  rewrite ValidateAgainstSchema_eq, own_check_eq, mbind_Ret.
  rewrite aligned_eq in Hal. cbn [Dependencies] in *.
  destruct (range_Dependencies_misaligned L values deps
              (render (own_section L (mkChart name schema deps) values)) IH Hal)
    as (t & v & -> & Hv).
  rewrite mbind_Panic. cbn. by eexists _, v.
Qed.

(** ** The router *)

Lemma is_legacy_path_spec (path : string) :
  is_legacy_path path = bool_decide (path ∈ legacy_paths).
Proof.
  unfold is_legacy_path, legacy_paths.
  destruct (String.eqb_spec path "/draft-04/schema") as [->|H4]; [done|].
  destruct (String.eqb_spec path "/draft-06/schema") as [->|H6]; [done|].
  destruct (String.eqb_spec path "/draft-07/schema") as [->|H7]; [done|].
  symmetry. apply bool_decide_eq_false. rewrite !elem_of_cons, elem_of_nil. tauto.
Qed.

(** The three early returns of [validateUsingNewValidator] are the legacy
    side of the dialect rule. *)
Lemma early_return_iff_legacy L schemaJSON :
  dialect_rule L schemaJSON = LegacyEngine ↔
  (let Schema := partialSchema_Schema L schemaJSON in
   if String.eqb Schema "" then True else
   match url_Parse L Schema with
   | Err _ => True
   | Ok url =>
     String.eqb (Host url) "json-schema.org" && is_legacy_path (EscapedPath url) = true
   end).
Proof.
  unfold dialect_rule. cbv zeta.
  change (declared_dialect L schemaJSON) with (partialSchema_Schema L schemaJSON).
  destruct (String.eqb_spec (partialSchema_Schema L schemaJSON) "") as [->|Hne].
  { by rewrite decide_True. }
  rewrite decide_False by done.
  destruct (url_Parse L (partialSchema_Schema L schemaJSON)) as [u|err]; [|done].
  rewrite is_legacy_path_spec.
  destruct (String.eqb_spec (Host u) "json-schema.org") as [Hh|Hh];
    case_bool_decide as Hp; destruct (decide _) as [Hd|Hd]; cbn;
    intuition congruence.
Qed.

Lemma validateUsingNewValidator_legacy L valuesJSON schemaJSON :
  dialect_rule L schemaJSON = LegacyEngine →
  validateUsingNewValidator L valuesJSON schemaJSON = ([], Ret (false, None)).
Proof.
  intros H%early_return_iff_legacy. unfold validateUsingNewValidator.
  cbv zeta in *.
  destruct (String.eqb (partialSchema_Schema L schemaJSON) ""); [done|].
  destruct (url_Parse L (partialSchema_Schema L schemaJSON)) as [u|err]; [|done].
  by rewrite H.
Qed.

Lemma validateUsingNewValidator_modern L valuesJSON schemaJSON :
  dialect_rule L schemaJSON = ModernEngine →
  ∃ t o, validateUsingNewValidator L valuesJSON schemaJSON
         = (call_newvalidator_UnmarshalJSON schemaJSON :: t, o)
       ∧ modern_only t
       ∧ registered_before_compiled t = true
       ∧ match o with Ret (processed, _) => processed = true | Panic _ => True end.
Proof.
  intros Hrule.
  assert (dialect_rule L schemaJSON ≠ LegacyEngine) as H by congruence.
  rewrite early_return_iff_legacy in H. unfold validateUsingNewValidator.
  cbv zeta in *.
  destruct (String.eqb (partialSchema_Schema L schemaJSON) ""); [done|].
  destruct (url_Parse L (partialSchema_Schema L schemaJSON)) as [u|err]; [|done].
  apply not_true_is_false in H. rewrite H.
  unfold mbind, M_bind, bind, call, mret, M_ret, ret.
  destruct (newvalidator_UnmarshalJSON L schemaJSON) as [[schema|err]|r]; cbn;
    [|by eexists _, _; split; [reflexivity|repeat constructor]..].
  destruct (newvalidator_UnmarshalJSON L valuesJSON) as [[values|err]|r]; cbn;
    [|by eexists _, _; split; [reflexivity|repeat constructor]..].
  destruct (Compiler_AddResource L _ _ schema) as [[compiler|err]|r]; cbn;
    [|by eexists _, _; split; [reflexivity|repeat constructor]..].
  destruct (Compiler_Compile L compiler _) as [[validator|err]|r]; cbn;
    [|by eexists _, _; split; [reflexivity|repeat constructor]..].
  destruct (Schema_Validate L validator values) as [err|r]; cbn;
    by eexists _, _; split; [reflexivity|repeat constructor].
Qed.

Lemma modern_only_runs (t : list event) :
  modern_only t → runs LegacyEngine t = false.
Proof.
  unfold runs. induction 1 as [|ev t Hev _ IH]; [done|].
  cbn [existsb]. rewrite IH, Hev. by rewrite bool_decide_eq_false_2.
Qed.

Lemma write_violations_bullets (descs : list string) :
  write_violations descs = foldr String.append "" (map bullet descs).
Proof.
  unfold write_violations.
  assert (∀ sb, foldl (fun sb desc => sb +:+ ("- " +:+ desc +:+ LF)) sb descs
                = sb +:+ foldr String.append "" (map bullet descs)) as H.
  { induction descs as [|desc descs IH]; intros sb; cbn [foldl map foldr].
    - by rewrite string_app_nil_r.
    - by rewrite IH, string_app_assoc. }
  by rewrite H.
Qed.

(** ** The single check, once the values are converted *)

Lemma ValidateAgainstSingleSchema_legacy L values schemaJSON valuesData valuesJSON :
  yaml_Marshal L values = Ret (Ok valuesData) →
  yaml_YAMLToJSON L valuesData = Ret (Ok valuesJSON) →
  dialect_rule L schemaJSON = LegacyEngine →
  ValidateAgainstSingleSchema L values schemaJSON =
  ([call_yaml_Marshal; call_yaml_YAMLToJSON valuesData;
    call_gojsonschema_Validate schemaJSON (canonical valuesJSON)],
   Ret (legacy_verdict (gojsonschema_Validate L schemaJSON (canonical valuesJSON)))).
Proof.
  intros Hm Hj Hrule.
  unfold ValidateAgainstSingleSchema, ValidateAgainstSingleSchema_body.
  rewrite Hm, mbind_call_Ret, Hj, mbind_call_Ret. cbv zeta. fold (canonical valuesJSON).
  rewrite (validateUsingNewValidator_legacy _ _ _ Hrule), mbind_Ret. cbn [fst snd].
  destruct (gojsonschema_Validate L schemaJSON (canonical valuesJSON))
    as [[res|err]|r]; [| |done].
  - rewrite mbind_call_Ret. cbn [legacy_verdict].
    rewrite write_violations_bullets. by destruct (Valid res).
  - by rewrite mbind_call_Ret.
Qed.

Lemma ValidateAgainstSingleSchema_modern L values schemaJSON valuesData valuesJSON :
  yaml_Marshal L values = Ret (Ok valuesData) →
  yaml_YAMLToJSON L valuesData = Ret (Ok valuesJSON) →
  dialect_rule L schemaJSON = ModernEngine →
  ValidateAgainstSingleSchema L values schemaJSON =
  (call_yaml_Marshal :: call_yaml_YAMLToJSON valuesData ::
     (validateUsingNewValidator L (canonical valuesJSON) schemaJSON).1,
   Ret (modern_verdict (validateUsingNewValidator L (canonical valuesJSON) schemaJSON).2)).
Proof.
  intros Hm Hj Hrule.
  unfold ValidateAgainstSingleSchema, ValidateAgainstSingleSchema_body.
  rewrite Hm, mbind_call_Ret, Hj, mbind_call_Ret. cbv zeta. fold (canonical valuesJSON).
  destruct (validateUsingNewValidator_modern L (canonical valuesJSON) schemaJSON Hrule)
    as (t & o & -> & _ & _ & Ho).
  destruct o as [[processed err]|r]; [|done].
  rewrite mbind_Ret. cbn in Ho. subst processed. cbn. by rewrite app_nil_r.
Qed.

Lemma ValidateAgainstSingleSchema_converted L values schemaJSON valuesData valuesJSON :
  yaml_Marshal L values = Ret (Ok valuesData) →
  yaml_YAMLToJSON L valuesData = Ret (Ok valuesJSON) →
  ValidateAgainstSingleSchema L values schemaJSON =
  (call_yaml_Marshal :: call_yaml_YAMLToJSON valuesData ::
     (engine_run L schemaJSON (canonical valuesJSON)).1,
   Ret (engine_run L schemaJSON (canonical valuesJSON)).2).
Proof.
  intros Hm Hj. unfold engine_run.
  destruct (dialect_rule L schemaJSON) eqn:Hrule.
  - by rewrite (ValidateAgainstSingleSchema_legacy _ _ _ _ _ Hm Hj Hrule).
  - by rewrite (ValidateAgainstSingleSchema_modern _ _ _ _ _ Hm Hj Hrule).
Qed.

(** How the calls of a check begin, by how far the conversion gets. *)
Lemma ValidateAgainstSingleSchema_calls L values schemaJSON :
  (ValidateAgainstSingleSchema L values schemaJSON).1 = [call_yaml_Marshal]
  ∨ (∃ valuesData,
       (ValidateAgainstSingleSchema L values schemaJSON).1
       = [call_yaml_Marshal; call_yaml_YAMLToJSON valuesData])
  ∨ (∃ valuesData valuesJSON,
       yaml_Marshal L values = Ret (Ok valuesData)
       ∧ yaml_YAMLToJSON L valuesData = Ret (Ok valuesJSON)
       ∧ (ValidateAgainstSingleSchema L values schemaJSON).1
         = call_yaml_Marshal :: call_yaml_YAMLToJSON valuesData ::
             (engine_run L schemaJSON (canonical valuesJSON)).1).
Proof.
  destruct (yaml_Marshal L values) as [[d|e]|r] eqn:Hm.
  - destruct (yaml_YAMLToJSON L d) as [[j|e]|r] eqn:Hj.
    + right; right. exists d, j. split_and!; [done..|].
      by rewrite (ValidateAgainstSingleSchema_converted _ _ _ _ _ Hm Hj).
    + right; left. exists d.
      unfold ValidateAgainstSingleSchema, ValidateAgainstSingleSchema_body.
      by rewrite Hm, mbind_call_Ret, Hj, mbind_call_Ret.
    + right; left. exists d.
      unfold ValidateAgainstSingleSchema, ValidateAgainstSingleSchema_body.
      by rewrite Hm, mbind_call_Ret, Hj.
  - left. unfold ValidateAgainstSingleSchema, ValidateAgainstSingleSchema_body.
    by rewrite Hm, mbind_call_Ret.
  - left. unfold ValidateAgainstSingleSchema, ValidateAgainstSingleSchema_body.
    by rewrite Hm.
Qed.

Lemma engine_run_calls L schemaJSON valuesJSON :
  ∀ ev, ev ∈ (engine_run L schemaJSON valuesJSON).1 →
        engine_of ev = Some (dialect_rule L schemaJSON).
Proof.
  intros ev. unfold engine_run.
  destruct (dialect_rule L schemaJSON) eqn:Hrule; cbn [fst].
  - rewrite list_elem_of_singleton. by intros ->.
  - destruct (validateUsingNewValidator_modern L valuesJSON schemaJSON Hrule)
      as (t & o & -> & Hmod & _). cbn [fst].
    rewrite elem_of_cons. intros [->|Hin]; [done|].
    unfold modern_only in Hmod. rewrite Forall_forall in Hmod. by apply Hmod.
Qed.

Lemma runs_true e t :
  runs e t = true ↔ ∃ ev, ev ∈ t ∧ engine_of ev = Some e.
Proof.
  unfold runs. rewrite existsb_exists. split.
  - intros (ev & Hin & Hev). exists ev. split; [by apply list_elem_of_In|].
    by apply bool_decide_eq_true in Hev.
  - intros (ev & Hin & Hev). exists ev. split; [by apply list_elem_of_In|].
    by apply bool_decide_eq_true.
Qed.

(** On the modern side the router does what the specification says of the
    modern engine, step by step. *)
Lemma validateUsingNewValidator_validates L valuesJSON schemaJSON :
  dialect_rule L schemaJSON = ModernEngine →
  ((validateUsingNewValidator L valuesJSON schemaJSON).1,
   modern_verdict (validateUsingNewValidator L valuesJSON schemaJSON).2)
  = engine_validates L ModernEngine schemaJSON valuesJSON.
Proof.
  intros Hrule.
  assert (dialect_rule L schemaJSON ≠ LegacyEngine) as H by congruence.
  rewrite early_return_iff_legacy in H.
  unfold validateUsingNewValidator, engine_validates, values_schema_url.
  cbv zeta in *.
  destruct (String.eqb (partialSchema_Schema L schemaJSON) ""); [done|].
  destruct (url_Parse L (partialSchema_Schema L schemaJSON)) as [u|?]; [|done].
  apply not_true_is_false in H. rewrite H.
  unfold mbind, M_bind, bind, call, mret, M_ret, ret.
  destruct (newvalidator_UnmarshalJSON L schemaJSON) as [[schema|?]|?]; cbn;
    [|done..].
  destruct (newvalidator_UnmarshalJSON L valuesJSON) as [[doc|?]|?]; cbn;
    [|done..].
  destruct (Compiler_AddResource L _ _ schema) as [[compiler|?]|?]; cbn;
    [|done..].
  destruct (Compiler_Compile L compiler _) as [[validator|?]|?]; cbn;
    [|done..].
  by destruct (Schema_Validate L validator doc) as [?|?].
Qed.

Lemma runs_cons e ev t :
  runs e (ev :: t) = bool_decide (engine_of ev = Some e) || runs e t.
Proof. done. Qed.

(** ** Properties of the router and of the tree walk *)

(** C1. Engine selection follows the fixed dialect rule.  Once the values are
    converted, a node's check is the engine that [dialect_rule] names for
    the schema bytes validating the canonical values: for an absent (empty)
    or unparsable ["$schema"], or host json-schema.org with one of the three
    draft paths, the legacy engine in one call of [gojsonschema.Validate];
    for any other declared dialect the modern engine, which parses schema
    and values, registers and compiles the schema and validates the values,
    and whose verdict is the result.  Exactly that engine runs.  Whatever
    the values, also when they do not convert, no call is made into the
    other engine, and the router declines exactly when the rule says
    legacy: the choice depends on the schema bytes alone. *)
Theorem engine_selection_follows_dialect_rule
    L values schemaJSON valuesData valuesJSON :
  yaml_Marshal L values = Ret (Ok valuesData) →
  yaml_YAMLToJSON L valuesData = Ret (Ok valuesJSON) →
  ValidateAgainstSingleSchema L values schemaJSON =
    (call_yaml_Marshal :: call_yaml_YAMLToJSON valuesData ::
       (engine_validates L (dialect_rule L schemaJSON) schemaJSON
          (canonical valuesJSON)).1,
     Ret (engine_validates L (dialect_rule L schemaJSON) schemaJSON
            (canonical valuesJSON)).2)
  ∧ (∀ e, runs e (ValidateAgainstSingleSchema L values schemaJSON).1
          = bool_decide (e = dialect_rule L schemaJSON))
  ∧ (∀ anyValues e,
       runs e (ValidateAgainstSingleSchema L anyValues schemaJSON).1 = true →
       e = dialect_rule L schemaJSON)
  ∧ (∀ anyJSON,
       validateUsingNewValidator L anyJSON schemaJSON = ([], Ret (false, None))
       ↔ dialect_rule L schemaJSON = LegacyEngine).
Proof.
  intros Hm Hj. split_and!.
  - destruct (dialect_rule L schemaJSON) eqn:Hrule.
    + by rewrite (ValidateAgainstSingleSchema_legacy _ _ _ _ _ Hm Hj Hrule).
    + rewrite (ValidateAgainstSingleSchema_modern _ _ _ _ _ Hm Hj Hrule).
      pose proof (validateUsingNewValidator_validates L (canonical valuesJSON)
                    schemaJSON Hrule) as Hv.
      by rewrite <- Hv.
  - destruct (dialect_rule L schemaJSON) eqn:Hrule.
    + rewrite (ValidateAgainstSingleSchema_legacy _ _ _ _ _ Hm Hj Hrule).
      by intros [].
    + rewrite (ValidateAgainstSingleSchema_modern _ _ _ _ _ Hm Hj Hrule).
      destruct (validateUsingNewValidator_modern L (canonical valuesJSON)
                  schemaJSON Hrule) as (t & o & Ht & Hmod & _ & _).
      rewrite Ht. cbn [fst]. intros e. rewrite !runs_cons. cbn [engine_of].
      destruct e; [|done]. by rewrite (modern_only_runs _ Hmod).
  - intros anyValues e. rewrite runs_true. intros (ev & Hin & Hev).
    destruct (ValidateAgainstSingleSchema_calls L anyValues schemaJSON)
      as [Ht|[[d Ht]|(d & j & _ & _ & Ht)]]; rewrite Ht in Hin.
    + apply list_elem_of_singleton in Hin. by subst ev.
    + rewrite !elem_of_cons, elem_of_nil in Hin.
      destruct Hin as [->|[->|[]]]; done.
    + rewrite !elem_of_cons in Hin. destruct Hin as [->|[->|Hin]]; [done..|].
      apply engine_run_calls in Hin. congruence.
  - intros anyJSON. split.
    + intros Hany. destruct (dialect_rule L schemaJSON) eqn:Hrule; [done|].
      destruct (validateUsingNewValidator_modern L anyJSON schemaJSON Hrule)
        as (t' & o' & Ht' & _). congruence.
    + by apply validateUsingNewValidator_legacy.
Qed.

(** C2, as amended.  On a tree whose children, at every level, all find
    their value subtree, validation never short-circuits: the walk makes
    the calls of every node's check, the parent's first and then each child's subtree in the order of
    [Dependencies], and returns the report of [sections]: one section per
    failing node, none for a node that passes, in that same order.  In
    particular a parent whose own schema is violated, with a first child
    whose subtree gives exactly its own section and a second child whose
    subtree gives none, yields exactly two sections, the parent's and then
    the first child's. *)
Theorem validation_never_short_circuits L chrt values :
  aligned chrt values = true →
  ValidateAgainstSchema L chrt values =
    (checks L chrt values, Ret (report (sections L chrt values)))
  ∧ (∀ c1 c2 m1 m2 violation_p violation_1,
       Dependencies chrt = [c1; c2] →
       own_section L chrt values = [(Name chrt, violation_p)] →
       scoped values c1 = Some m1 → sections L c1 m1 = [(Name c1, violation_1)] →
       scoped values c2 = Some m2 → sections L c2 m2 = [] →
       sections L chrt values = [(Name chrt, violation_p); (Name c1, violation_1)]
       ∧ (ValidateAgainstSchema L chrt values).2 =
         Ret (Some (errors_New
           (Name chrt +:+ ":" +:+ LF +:+ violation_p +:+
            (Name c1 +:+ ":" +:+ LF +:+ violation_1 +:+ ""))))).
Proof.
  intros Hal. pose proof (ValidateAgainstSchema_aligned L chrt values Hal) as Hrun.
  split; [done|].
  intros c1 c2 m1 m2 vp v1 Hdeps Hown H1 Hs1 H2 Hs2.
  assert (sections L chrt values = [(Name chrt, vp); (Name c1, v1)]) as Hsecs.
  { rewrite sections_eq, Hown, Hdeps. cbn [flat_map].
    by rewrite H1, H2, Hs1, Hs2. }
  split; [done|]. rewrite Hrun, Hsecs. cbn [snd report]. do 3 f_equal.
  unfold render, block. cbn [map foldr fst snd].
  by rewrite !string_app_assoc.
Qed.

(** C4, as amended.  On a tree in which no node carries a schema document and
    every child's name, at every level, is bound to a map in its parent's
    values, the walk returns success without calling any package, whatever
    else the values hold. *)
Theorem schemaless_aligned_tree_succeeds L chrt values :
  schemaless chrt = true →
  aligned chrt values = true →
  ValidateAgainstSchema L chrt values = ([], Ret None).
Proof.
  intros Hno Hal. rewrite (ValidateAgainstSchema_aligned L chrt values Hal).
  assert (∀ values, sections L chrt values = [] ∧ checks L chrt values = []) as H.
  { clear values Hal. induction chrt as [name schema deps IH] using Chart_ind'.
    intros values. rewrite sections_eq, checks_eq.
    unfold own_section, own_calls. cbn [Schema Dependencies].
    destruct schema as [schema|]; [done|].
    assert (forallb schemaless deps = true) as Hdeps by done. clear Hno.
    cbn [app]. rewrite forallb_forall in Hdeps. rename Hdeps into Hno.
    induction IH as [|subchart deps Hsub _ IHdeps]; [done|]. cbn [flat_map].
    destruct IHdeps as [-> ->].
    { intros c Hc. apply Hno. by right. }
    assert (schemaless subchart = true) as Hs by (apply Hno; by left).
    destruct (scoped values subchart) as [m|]; [|done].
    by destruct (Hsub Hs m) as [-> ->]. }
  by destruct (H values) as [-> ->].
Qed.

(** C3, as amended.  On a tree in which some child's name is missing from its
    parent's values, or bound there to something that is no map, the walk
    panics with the runtime's error of the failed type assertion; nothing
    recovers it inside the walk, so no error is returned and no report is
    aggregated. *)
Theorem misaligned_tree_panics L chrt values :
  aligned chrt values = false →
  ∃ t v, ValidateAgainstSchema L chrt values = (t, Panic (TypeAssertionError v))
         ∧ (∀ m, v ≠ VMap m)
         ∧ (∀ err, (ValidateAgainstSchema L chrt values).2 ≠ Ret err).
Proof.
  intros Hal.
  destruct (ValidateAgainstSchema_misaligned L chrt values Hal) as (t & v & Hrun & Hv).
  exists t, v. split_and!; [done..|]. intros err. by rewrite Hrun.
Qed.

Lemma ValidateAgainstSchema_leaf L name schemaJSON values :
  ValidateAgainstSchema L (mkChart name (Some schemaJSON) []) values =
  ((ValidateAgainstSingleSchema L values schemaJSON).1,
   Ret (match (ValidateAgainstSingleSchema L values schemaJSON).2 with
        | Ret (Some err) => Some (errors_New (name +:+ ":" +:+ LF +:+ Error err))
        | _ => None
        end)).
Proof.
  rewrite (ValidateAgainstSchema_aligned L (mkChart name (Some schemaJSON) []) values)
    by done.
  rewrite checks_eq, sections_eq. unfold own_calls, own_section.
  cbn [Schema Dependencies Name flat_map]. rewrite !app_nil_r.
  destruct (ValidateAgainstSingleSchema L values schemaJSON).2 as [[err|]|r]; [|done..].
  cbn. by rewrite string_app_nil_r.
Qed.

(** C5. When the conversion of the values yields the document [null], the
    document the selected engine validates is [{}]: the check makes the
    engine's calls on [{}] and returns its verdict on [{}].  Consequently,
    when that engine accepts [{}] under the schema, the check and a bundle
    with that schema and those values succeed. *)
Theorem null_values_validate_as_empty_object L values schemaJSON valuesData :
  yaml_Marshal L values = Ret (Ok valuesData) →
  yaml_YAMLToJSON L valuesData = Ret (Ok (bytes_of "null")) →
  ValidateAgainstSingleSchema L values schemaJSON =
    (call_yaml_Marshal :: call_yaml_YAMLToJSON valuesData ::
       (engine_run L schemaJSON (bytes_of "{}")).1,
     Ret (engine_run L schemaJSON (bytes_of "{}")).2)
  ∧ ((engine_run L schemaJSON (bytes_of "{}")).2 = None →
     ∀ name,
       (ValidateAgainstSchema L (mkChart name (Some schemaJSON) []) values).2
       = Ret None).
Proof.
  intros Hm Hj.
  pose proof (ValidateAgainstSingleSchema_converted L values schemaJSON _ _ Hm Hj) as H.
  change (canonical (bytes_of "null")) with (bytes_of "{}") in H.
  split; [done|]. intros Hok name.
  by rewrite ValidateAgainstSchema_leaf, H, Hok.
Qed.

(** C6. A panic raised anywhere in the single check, the conversion and either
    engine included, is caught by the deferred function: the check always
    returns, and when its body panics with [r] it returns the error whose
    text is "unable to validate schema: " followed by the rendering of
    [r]. *)
Theorem panics_are_recovered L values schemaJSON :
  (∃ err, (ValidateAgainstSingleSchema L values schemaJSON).2 = Ret err)
  ∧ (∀ t r, ValidateAgainstSingleSchema_body L values schemaJSON = (t, Panic r) →
       ValidateAgainstSingleSchema L values schemaJSON =
       (t, Ret (Some (fmt_Errorf ("unable to validate schema: " +:+ Sprintf_s r)))))
  ∧ (∀ t err, ValidateAgainstSingleSchema_body L values schemaJSON = (t, Ret err) →
       ValidateAgainstSingleSchema L values schemaJSON = (t, Ret err))
  ∧ (∀ valuesData valuesJSON r,
       yaml_Marshal L values = Ret (Ok valuesData) →
       yaml_YAMLToJSON L valuesData = Ret (Ok valuesJSON) →
       dialect_rule L schemaJSON = LegacyEngine →
       gojsonschema_Validate L schemaJSON (canonical valuesJSON) = Panic r →
       (ValidateAgainstSingleSchema L values schemaJSON).2 =
       Ret (Some (fmt_Errorf ("unable to validate schema: " +:+ Sprintf_s r))))
  ∧ (∀ valuesData valuesJSON t r,
       yaml_Marshal L values = Ret (Ok valuesData) →
       yaml_YAMLToJSON L valuesData = Ret (Ok valuesJSON) →
       validateUsingNewValidator L (canonical valuesJSON) schemaJSON = (t, Panic r) →
       (ValidateAgainstSingleSchema L values schemaJSON).2 =
       Ret (Some (fmt_Errorf ("unable to validate schema: " +:+ Sprintf_s r)))).
Proof.
  split_and!.
  - destruct (ValidateAgainstSingleSchema_returns L values schemaJSON) as [err ->].
    by exists err.
  - intros t r H. unfold ValidateAgainstSingleSchema. by rewrite H.
  - intros t err H. unfold ValidateAgainstSingleSchema. by rewrite H.
  - intros d j r Hm Hj Hrule Hpanic.
    rewrite (ValidateAgainstSingleSchema_legacy _ _ _ _ _ Hm Hj Hrule).
    by rewrite Hpanic.
  - intros d j t r Hm Hj Hpanic.
    unfold ValidateAgainstSingleSchema, ValidateAgainstSingleSchema_body.
    rewrite Hm, mbind_call_Ret, Hj, mbind_call_Ret. cbv zeta.
    fold (canonical j). by rewrite Hpanic.
Qed.

Lemma returns_aligned L chrt values res :
  (ValidateAgainstSchema L chrt values).2 = Ret res → aligned chrt values = true.
Proof.
  intros Hret. destruct (aligned chrt values) eqn:Hal; [done|].
  destruct (ValidateAgainstSchema_misaligned L chrt values Hal) as (t & v & Hrun & _).
  by rewrite Hrun in Hret.
Qed.

(** C7. When the walk returns an error, its text is one block per failing
    bundle, [<bundle-name>:], a line feed and the text of that bundle's
    error, the blocks concatenated in traversal order.  When the failure of
    a bundle was reported by the legacy engine, that text is one line per
    violation, each starting with "- ". *)
Theorem report_text_is_one_block_per_failing_bundle L chrt values err :
  (ValidateAgainstSchema L chrt values).2 = Ret (Some err) →
  sections L chrt values ≠ []
  ∧ Error err =
    foldr String.append ""
      (map (fun sec => sec.1 +:+ ":" +:+ LF +:+ sec.2) (sections L chrt values))
  ∧ (∀ schemaJSON valuesData valuesJSON res,
       Schema chrt = Some schemaJSON →
       yaml_Marshal L values = Ret (Ok valuesData) →
       yaml_YAMLToJSON L valuesData = Ret (Ok valuesJSON) →
       dialect_rule L schemaJSON = LegacyEngine →
       gojsonschema_Validate L schemaJSON (canonical valuesJSON) = Ret (Ok res) →
       Valid res = false →
       ∃ rest, sections L chrt values =
               (Name chrt,
                foldr String.append ""
                  (map (fun desc => "- " +:+ desc +:+ LF) (Errors res))) :: rest).
Proof.
  intros Hret. pose proof (returns_aligned _ _ _ _ Hret) as Hal.
  rewrite (ValidateAgainstSchema_aligned L chrt values Hal) in Hret.
  cbn [snd] in Hret. split_and!.
  - intros Hnil. by rewrite Hnil in Hret.
  - destruct (sections L chrt values); [done|]. by simplify_eq.
  - intros schemaJSON d j res Hschema Hm Hj Hrule Hres Hinvalid.
    rewrite sections_eq. unfold own_section. rewrite Hschema.
    rewrite (ValidateAgainstSingleSchema_legacy _ _ _ _ _ Hm Hj Hrule), Hres.
    cbn [snd legacy_verdict]. rewrite Hinvalid. cbn [Error app]. eauto.
Qed.

(** C8. When the modern engine is selected and the schema document fails to
    parse, to register or to compile, the node's check returns the error of
    the failing call as it is, at once: the calls stop at the failing one,
    none of them is a call into the legacy engine or the validation of the
    values, and the schema is registered, and then compiled, under
    "file:///values.schema.json" only. *)
Theorem malformed_schema_is_returned_at_once
    L values schemaJSON valuesData valuesJSON t err :
  yaml_Marshal L values = Ret (Ok valuesData) →
  yaml_YAMLToJSON L valuesData = Ret (Ok valuesJSON) →
  dialect_rule L schemaJSON = ModernEngine →
  schema_failure L (canonical valuesJSON) schemaJSON = Some (t, err) →
  ValidateAgainstSingleSchema L values schemaJSON =
    (call_yaml_Marshal :: call_yaml_YAMLToJSON valuesData :: t, Ret (Some err))
  ∧ runs LegacyEngine t = false
  ∧ (call_newvalidator_Validate ∉ t)
  ∧ registered_before_compiled t = true
  ∧ (∀ anyJSON,
       registered_before_compiled
         (validateUsingNewValidator L anyJSON schemaJSON).1 = true).
Proof.
  intros Hm Hj Hrule Hfail.
  rewrite (ValidateAgainstSingleSchema_modern _ _ _ _ _ Hm Hj Hrule).
  assert (validateUsingNewValidator L (canonical valuesJSON) schemaJSON
          = (t, Ret (true, Some err))
          ∧ call_newvalidator_Validate ∉ t) as [Hrun Hnot].
  { assert (dialect_rule L schemaJSON ≠ LegacyEngine) as H by congruence.
    rewrite early_return_iff_legacy in H.
    unfold validateUsingNewValidator, schema_failure in *. cbv zeta in *.
    destruct (String.eqb (partialSchema_Schema L schemaJSON) ""); [done|].
    destruct (url_Parse L (partialSchema_Schema L schemaJSON)) as [u|?]; [|done].
    apply not_true_is_false in H. rewrite H.
    unfold mbind, M_bind, bind, call, mret, M_ret, ret.
    destruct (newvalidator_UnmarshalJSON L schemaJSON) as [[schema|?]|?];
      simplify_eq; cbn; [|by split; [|not_in_trace]].
    destruct (newvalidator_UnmarshalJSON L (canonical valuesJSON)) as [[doc|?]|?];
      simplify_eq; cbn.
    destruct (Compiler_AddResource L _ _ schema) as [[compiler|?]|?];
      simplify_eq; cbn; [|by split; [|not_in_trace]].
    destruct (Compiler_Compile L compiler _) as [[validator|?]|?];
      simplify_eq; cbn. by split; [|not_in_trace]. }
  rewrite Hrun. cbn [fst snd modern_verdict].
  destruct (validateUsingNewValidator_modern L (canonical valuesJSON) schemaJSON Hrule)
    as (t' & o & Ht' & Hmod & Hreg & _).
  rewrite Hrun in Ht'. simplify_eq. split_and!; [done| |done|done|].
  - rewrite runs_cons. cbn [engine_of]. by rewrite (modern_only_runs _ Hmod).
  - intros anyJSON.
    by destruct (validateUsingNewValidator_modern L anyJSON schemaJSON Hrule)
      as (t'' & o'' & -> & _ & Hreg' & _).
Qed.

(** C9. For schema bytes that are not JSON at all, the error of the ["$schema"]
    extraction is dropped and the declared dialect reads as empty: the
    router declines without an error, whatever the values, and the check
    hands the schema bytes as they are to the legacy engine, whose verdict
    is the result. *)
Theorem unparsable_schema_is_routed_to_legacy
    L values schemaJSON syntax_err valuesData valuesJSON :
  json_Unmarshal L schemaJSON = SyntaxError syntax_err →
  yaml_Marshal L values = Ret (Ok valuesData) →
  yaml_YAMLToJSON L valuesData = Ret (Ok valuesJSON) →
  partialSchema_Schema L schemaJSON = ""
  ∧ (∀ anyJSON,
       validateUsingNewValidator L anyJSON schemaJSON = ([], Ret (false, None)))
  ∧ ValidateAgainstSingleSchema L values schemaJSON =
    ([call_yaml_Marshal; call_yaml_YAMLToJSON valuesData;
      call_gojsonschema_Validate schemaJSON (canonical valuesJSON)],
     Ret (legacy_verdict (gojsonschema_Validate L schemaJSON (canonical valuesJSON)))).
Proof.
  intros Hsyntax Hm Hj.
  assert (partialSchema_Schema L schemaJSON = "") as Hempty.
  { unfold partialSchema_Schema. by rewrite Hsyntax. }
  assert (dialect_rule L schemaJSON = LegacyEngine) as Hrule.
  { unfold dialect_rule, declared_dialect. by rewrite Hsyntax. }
  split_and!; [done| |].
  - intros anyJSON. by apply validateUsingNewValidator_legacy.
  - by apply ValidateAgainstSingleSchema_legacy.
Qed.

(** C10. Whatever non-nil error a child's recursive validation returns, the
    loop over the children appends its text to the builder and goes on with
    the remaining siblings.  That error is always a plain [errors.New] of
    the child's rendered sections: when the child's own check returned an
    error of any kind, only its text remains, under the child's name. *)
Theorem child_errors_are_appended_as_text L values subchart deps sb m t err :
  scoped values subchart = Some m →
  ValidateAgainstSchema L subchart m = (t, Ret (Some err)) →
  range_Dependencies (ValidateAgainstSchema L) values (subchart :: deps) sb =
    (t ++ (range_Dependencies (ValidateAgainstSchema L) values deps
             (sb +:+ Error err)).1,
     (range_Dependencies (ValidateAgainstSchema L) values deps
        (sb +:+ Error err)).2)
  ∧ err = errors_New (render (sections L subchart m))
  ∧ (∀ schemaJSON own_err,
       Schema subchart = Some schemaJSON →
       (ValidateAgainstSingleSchema L m schemaJSON).2 = Ret (Some own_err) →
       ∃ rest, Error err = Name subchart +:+ ":" +:+ LF +:+ Error own_err +:+ rest).
Proof.
  intros Hm Hrun. split_and!.
  - cbn [range_Dependencies].
    by rewrite (assert_map_scoped _ _ _ Hm), mbind_Ret, Hrun, mbind_Ret.
  - assert (aligned subchart m = true) as Hal.
    { apply (returns_aligned L _ _ (Some err)). by rewrite Hrun. }
    rewrite (ValidateAgainstSchema_aligned L subchart m Hal) in Hrun.
    destruct (sections L subchart m); by simplify_eq.
  - intros schemaJSON own_err Hschema Hown.
    assert (aligned subchart m = true) as Hal.
    { apply (returns_aligned L _ _ (Some err)). by rewrite Hrun. }
    rewrite (ValidateAgainstSchema_aligned L subchart m Hal) in Hrun.
    rewrite sections_eq in Hrun. unfold own_section in Hrun.
    rewrite Hschema, Hown in Hrun. cbn [app report] in Hrun. simplify_eq.
    eexists. cbn [Error]. unfold render, block. cbn [map foldr fst snd].
    by rewrite !string_app_assoc.
Qed.

(** ** The properties on concrete charts *)

(** C1 at a schema that declares draft 2020-12 and values [{"b":1}]: the
    modern engine runs all five steps and its verdict, that [a] is missing,
    is the result; the legacy engine does not run. *)
Lemma engine_selection_on_2020_12 :
  let yaml_b := bytes_of ("{" +:+ Demo.member "b" "1" +:+ "}" +:+ LF) in
  let json_b := bytes_of ("{" +:+ Demo.member "b" "1" +:+ "}") in
  yaml_Marshal Demo.libs Demo.values_c1 = Ret (Ok yaml_b)
  ∧ yaml_YAMLToJSON Demo.libs yaml_b = Ret (Ok json_b)
  ∧ ValidateAgainstSingleSchema Demo.libs Demo.values_c1 Demo.schema_2020_12 =
    ([call_yaml_Marshal; call_yaml_YAMLToJSON yaml_b;
      call_newvalidator_UnmarshalJSON Demo.schema_2020_12;
      call_newvalidator_UnmarshalJSON json_b;
      call_newvalidator_AddResource "file:///values.schema.json";
      call_newvalidator_Compile "file:///values.schema.json";
      call_newvalidator_Validate],
     Ret (Some Demo.a_is_required))
  ∧ ∀ e, runs e (ValidateAgainstSingleSchema Demo.libs Demo.values_c1
                   Demo.schema_2020_12).1
         = bool_decide (e = ModernEngine).
Proof.
  intros yaml_b json_b.
  assert (yaml_Marshal Demo.libs Demo.values_c1 = Ret (Ok yaml_b)) as Hm
    by (vm_compute; reflexivity).
  assert (yaml_YAMLToJSON Demo.libs yaml_b = Ret (Ok json_b)) as Hj
    by (vm_compute; reflexivity).
  split; [exact Hm|split; [exact Hj|]].
  destruct (engine_selection_follows_dialect_rule
              Demo.libs Demo.values_c1 Demo.schema_2020_12 _ _ Hm Hj)
    as (Hrun & Hruns & _).
  split.
  - rewrite Hrun. vm_compute. reflexivity.
  - exact Hruns.
Defined.

(** C2 as stated fails: with values that bind only the first child, the
    parent and the first child fail their checks, and the walk then panics
    at the second child; no report is returned. *)
Lemma later_sibling_without_values_loses_the_report :
  length (sections Demo.libs Demo.parent Demo.values_only_c1) = 2
  ∧ (ValidateAgainstSchema Demo.libs Demo.parent Demo.values_only_c1).2
    = Panic (TypeAssertionError VNil)
  ∧ (ValidateAgainstSchema Demo.libs Demo.parent Demo.values_only_c1).2
    ≠ Ret (report (sections Demo.libs Demo.parent Demo.values_only_c1)).
Proof.
  split; [vm_compute; reflexivity|].
  split; [vm_compute; reflexivity|].
  intros H. vm_compute in H. discriminate H.
Qed.

(** C2 at the parent with two children: two sections, the parent's and the
    first child's, and nothing for the second child. *)
Lemma parent_and_first_child_are_reported :
  aligned Demo.parent Demo.values_parent = true
  ∧ ValidateAgainstSchema Demo.libs Demo.parent Demo.values_parent =
    (checks Demo.libs Demo.parent Demo.values_parent,
     Ret (Some (errors_New Demo.text_parent)))
  ∧ length (sections Demo.libs Demo.parent Demo.values_parent) = 2.
Proof.
  assert (aligned Demo.parent Demo.values_parent = true) as Hal
    by (vm_compute; reflexivity).
  split; [exact Hal|].
  destruct (validation_never_short_circuits Demo.libs _ _ Hal) as [Hrun _].
  split; [|vm_compute; reflexivity].
  rewrite Hrun. vm_compute. reflexivity.
Defined.

(** C3 as stated fails: a chart whose dependency [db] is bound to a string
    does not return an error, it panics. *)
Lemma string_for_subchart_panics :
  aligned Demo.app Demo.values_db_string = false
  ∧ ValidateAgainstSchema Demo.libs Demo.app Demo.values_db_string =
    ([], Panic (TypeAssertionError (VString "postgres")))
  ∧ ¬ ∃ err, (ValidateAgainstSchema Demo.libs Demo.app Demo.values_db_string).2
             = Ret (Some err).
Proof.
  split; [vm_compute; reflexivity|].
  split; [vm_compute; reflexivity|].
  intros [err H]. vm_compute in H. discriminate H.
Qed.

(** C3 as amended, at the same chart. *)
Lemma app_with_string_for_db_panics :
  aligned Demo.app Demo.values_db_string = false
  ∧ ∃ t v, ValidateAgainstSchema Demo.libs Demo.app Demo.values_db_string
           = (t, Panic (TypeAssertionError v))
         ∧ (∀ m, v ≠ VMap m)
         ∧ (∀ err, (ValidateAgainstSchema Demo.libs Demo.app
                      Demo.values_db_string).2 ≠ Ret err).
Proof.
  assert (aligned Demo.app Demo.values_db_string = false) as Hal
    by (vm_compute; reflexivity).
  split; [exact Hal|].
  exact (misaligned_tree_panics Demo.libs _ _ Hal).
Defined.

(** C4 as stated fails: a chart without any schema, whose dependency has no
    entry in the values, does not succeed, it panics. *)
Lemma schemaless_tree_without_subchart_values_panics :
  schemaless Demo.bare = true
  ∧ ValidateAgainstSchema Demo.libs Demo.bare ∅ =
    ([], Panic (TypeAssertionError VNil))
  ∧ (ValidateAgainstSchema Demo.libs Demo.bare ∅).2 ≠ Ret None.
Proof.
  split; [vm_compute; reflexivity|].
  split; [vm_compute; reflexivity|].
  intros H. vm_compute in H. discriminate H.
Qed.

(** C4 as amended, at the same chart with values that bind [db] to a map. *)
Lemma schemaless_tree_succeeds_on_bare :
  schemaless Demo.bare = true
  ∧ aligned Demo.bare Demo.values_app = true
  ∧ ValidateAgainstSchema Demo.libs Demo.bare Demo.values_app = ([], Ret None).
Proof.
  assert (schemaless Demo.bare = true) as Hno by (vm_compute; reflexivity).
  assert (aligned Demo.bare Demo.values_app = true) as Hal
    by (vm_compute; reflexivity).
  split; [exact Hno|split; [exact Hal|]].
  exact (schemaless_aligned_tree_succeeds Demo.libs _ _ Hno Hal).
Defined.

(** C5 at empty values and the schema [{"type":"object"}]. *)
Lemma empty_values_satisfy_type_object :
  yaml_Marshal Demo.libs ∅ = Ret (Ok Demo.yaml_null)
  ∧ yaml_YAMLToJSON Demo.libs Demo.yaml_null = Ret (Ok (bytes_of "null"))
  ∧ (engine_run Demo.libs Demo.schema_object (bytes_of "{}")).2 = None
  ∧ (ValidateAgainstSchema Demo.libs
       (mkChart "app" (Some Demo.schema_object) []) ∅).2 = Ret None.
Proof.
  assert (yaml_Marshal Demo.libs ∅ = Ret (Ok Demo.yaml_null)) as Hm
    by (vm_compute; reflexivity).
  assert (yaml_YAMLToJSON Demo.libs Demo.yaml_null = Ret (Ok (bytes_of "null"))) as Hj
    by (vm_compute; reflexivity).
  assert ((engine_run Demo.libs Demo.schema_object (bytes_of "{}")).2 = None) as Hok
    by (vm_compute; reflexivity).
  split; [exact Hm|split; [exact Hj|split; [exact Hok|]]].
  exact (proj2 (null_values_validate_as_empty_object
                  Demo.libs ∅ Demo.schema_object _ Hm Hj) Hok "app").
Defined.

(** C6 at a schema on which the legacy engine of the stand-in panics. *)
Example engine_panic_is_reported :
  ValidateAgainstSingleSchema Demo.libs Demo.values_a Demo.schema_ref =
  ([call_yaml_Marshal; call_yaml_YAMLToJSON Demo.yaml_a;
    call_gojsonschema_Validate Demo.schema_ref Demo.json_a],
   Ret (Some (fmt_Errorf
     "unable to validate schema: runtime error: invalid memory address or nil pointer dereference"))).
Proof. vm_compute. reflexivity. Qed.

(** C7 at the parent with two children. *)
Lemma report_text_of_parent :
  (ValidateAgainstSchema Demo.libs Demo.parent Demo.values_parent).2 =
    Ret (Some (errors_New Demo.text_parent))
  ∧ Demo.text_parent =
    foldr String.append ""
      (map (fun sec => sec.1 +:+ ":" +:+ LF +:+ sec.2)
         (sections Demo.libs Demo.parent Demo.values_parent)).
Proof.
  assert ((ValidateAgainstSchema Demo.libs Demo.parent Demo.values_parent).2 =
          Ret (Some (errors_New Demo.text_parent))) as Hret
    by (vm_compute; reflexivity).
  split; [exact Hret|].
  exact (proj1 (proj2 (report_text_is_one_block_per_failing_bundle
                         Demo.libs _ _ _ Hret))).
Defined.

(** C8 at a 2020-12 schema whose [type] is a number. *)
Lemma invalid_2020_12_schema_is_returned :
  let t := [call_newvalidator_UnmarshalJSON Demo.schema_2020_12_invalid;
            call_newvalidator_UnmarshalJSON Demo.json_a;
            call_newvalidator_AddResource "file:///values.schema.json";
            call_newvalidator_Compile "file:///values.schema.json"] in
  yaml_Marshal Demo.libs Demo.values_a = Ret (Ok Demo.yaml_a)
  ∧ yaml_YAMLToJSON Demo.libs Demo.yaml_a = Ret (Ok Demo.json_a)
  ∧ dialect_rule Demo.libs Demo.schema_2020_12_invalid = ModernEngine
  ∧ schema_failure Demo.libs (canonical Demo.json_a) Demo.schema_2020_12_invalid
    = Some (t, Demo.metaschema_error)
  ∧ ValidateAgainstSingleSchema Demo.libs Demo.values_a Demo.schema_2020_12_invalid
    = (call_yaml_Marshal :: call_yaml_YAMLToJSON Demo.yaml_a :: t,
       Ret (Some Demo.metaschema_error)).
Proof.
  intros t.
  assert (yaml_Marshal Demo.libs Demo.values_a = Ret (Ok Demo.yaml_a)) as Hm
    by (vm_compute; reflexivity).
  assert (yaml_YAMLToJSON Demo.libs Demo.yaml_a = Ret (Ok Demo.json_a)) as Hj
    by (vm_compute; reflexivity).
  assert (dialect_rule Demo.libs Demo.schema_2020_12_invalid = ModernEngine) as Hrule
    by (vm_compute; reflexivity).
  assert (schema_failure Demo.libs (canonical Demo.json_a) Demo.schema_2020_12_invalid
          = Some (t, Demo.metaschema_error)) as Hfail
    by (vm_compute; reflexivity).
  split; [exact Hm|split; [exact Hj|split; [exact Hrule|split; [exact Hfail|]]]].
  exact (proj1 (malformed_schema_is_returned_at_once
                  Demo.libs _ _ _ _ _ _ Hm Hj Hrule Hfail)).
Defined.

(** C9 at schema bytes that are YAML, not JSON. *)
Lemma garbage_schema_is_routed_to_legacy :
  json_Unmarshal Demo.libs Demo.schema_garbage = SyntaxError Demo.syntax_error
  ∧ yaml_Marshal Demo.libs Demo.values_a = Ret (Ok Demo.yaml_a)
  ∧ yaml_YAMLToJSON Demo.libs Demo.yaml_a = Ret (Ok Demo.json_a)
  ∧ ∀ anyJSON,
      validateUsingNewValidator Demo.libs anyJSON Demo.schema_garbage
      = ([], Ret (false, None)).
Proof.
  assert (json_Unmarshal Demo.libs Demo.schema_garbage
          = SyntaxError Demo.syntax_error) as Hs by (vm_compute; reflexivity).
  assert (yaml_Marshal Demo.libs Demo.values_a = Ret (Ok Demo.yaml_a)) as Hm
    by (vm_compute; reflexivity).
  assert (yaml_YAMLToJSON Demo.libs Demo.yaml_a = Ret (Ok Demo.json_a)) as Hj
    by (vm_compute; reflexivity).
  split; [exact Hs|split; [exact Hm|split; [exact Hj|]]].
  exact (proj1 (proj2 (unparsable_schema_is_routed_to_legacy
                         Demo.libs _ _ _ _ _ Hs Hm Hj))).
Defined.

(** C10 at the first child of the parent. *)
Lemma first_child_error_is_appended :
  scoped Demo.values_parent Demo.c1 = Some Demo.values_c1
  ∧ ValidateAgainstSchema Demo.libs Demo.c1 Demo.values_c1 =
    ((ValidateAgainstSchema Demo.libs Demo.c1 Demo.values_c1).1,
     Ret (Some (errors_New Demo.text_c1)))
  ∧ errors_New Demo.text_c1
    = errors_New (render (sections Demo.libs Demo.c1 Demo.values_c1)).
Proof.
  assert (scoped Demo.values_parent Demo.c1 = Some Demo.values_c1) as Hm
    by (vm_compute; reflexivity).
  assert (ValidateAgainstSchema Demo.libs Demo.c1 Demo.values_c1 =
          ((ValidateAgainstSchema Demo.libs Demo.c1 Demo.values_c1).1,
           Ret (Some (errors_New Demo.text_c1)))) as Hrun
    by (vm_compute; reflexivity).
  split; [exact Hm|split; [exact Hrun|]].
  exact (proj1 (proj2 (child_errors_are_appended_as_text
                         Demo.libs Demo.values_parent Demo.c1 [Demo.c2] "" _ _ _
                         Hm Hrun))).
Defined.

(** ** Further properties of the single check *)

(** X5. Whatever the packages do, every call a check makes into an engine is
    a call into the engine the dialect rule names for the schema bytes: the
    other engine is never called, also when the conversion fails or a
    package panics. *)
Theorem only_the_selected_engine_is_called L values schemaJSON e :
  runs e (ValidateAgainstSingleSchema L values schemaJSON).1 = true →
  e = dialect_rule L schemaJSON.
Proof.
  rewrite runs_true. intros (ev & Hin & Hev).
  destruct (ValidateAgainstSingleSchema_calls L values schemaJSON)
    as [Ht|[[d Ht]|(d & j & _ & _ & Ht)]]; rewrite Ht in Hin.
  - apply list_elem_of_singleton in Hin. by subst ev.
  - rewrite !elem_of_cons, elem_of_nil in Hin.
    destruct Hin as [->|[->|[]]]; done.
  - rewrite !elem_of_cons in Hin. destruct Hin as [->|[->|Hin]]; [done..|].
    apply engine_run_calls in Hin. congruence.
Qed.

Lemma canonical_not_null valuesJSON : canonical valuesJSON ≠ bytes_of "null".
Proof. unfold canonical. by case_decide. Qed.

Lemma validateUsingNewValidator_parses L valuesJSON schemaJSON data :
  call_newvalidator_UnmarshalJSON data ∈ (validateUsingNewValidator L valuesJSON schemaJSON).1 →
  data = schemaJSON ∨ data = valuesJSON.
Proof.
  unfold validateUsingNewValidator. cbv zeta.
  destruct (String.eqb (partialSchema_Schema L schemaJSON) "");
    [by intros ?%elem_of_nil|].
  destruct (url_Parse L (partialSchema_Schema L schemaJSON)) as [u|?];
    [|by intros ?%elem_of_nil].
  destruct (_ && _); [by intros ?%elem_of_nil|].
  unfold mbind, M_bind, bind, call, mret, M_ret, ret.
  destruct (newvalidator_UnmarshalJSON L schemaJSON) as [[schema|?]|?]; cbn;
    [|rewrite !elem_of_cons, elem_of_nil; intuition congruence..].
  destruct (newvalidator_UnmarshalJSON L valuesJSON) as [[doc|?]|?]; cbn;
    [|rewrite !elem_of_cons, elem_of_nil; intuition congruence..].
  destruct (Compiler_AddResource L _ _ schema) as [[compiler|?]|?]; cbn;
    [|rewrite !elem_of_cons, elem_of_nil; intuition congruence..].
  destruct (Compiler_Compile L compiler _) as [[validator|?]|?]; cbn;
    [|rewrite !elem_of_cons, elem_of_nil; intuition congruence..].
  destruct (Schema_Validate L validator doc) as [?|?]; cbn;
    rewrite !elem_of_cons, elem_of_nil; intuition congruence.
Qed.

(** X6. No engine is ever handed the values document [null]: every call of
    [gojsonschema.Validate] a check makes is on the schema bytes and a
    values document other than [null], and every document the modern engine
    parses is the schema bytes or a values document other than [null]. *)
Theorem engines_never_see_null L values schemaJSON ev :
  ev ∈ (ValidateAgainstSingleSchema L values schemaJSON).1 →
  match ev with
  | call_gojsonschema_Validate schema doc =>
      schema = schemaJSON ∧ doc ≠ bytes_of "null"
  | call_newvalidator_UnmarshalJSON data =>
      data = schemaJSON ∨ data ≠ bytes_of "null"
  | _ => True
  end.
Proof.
  intros Hin.
  destruct (ValidateAgainstSingleSchema_calls L values schemaJSON)
    as [Ht|[[d Ht]|(d & j & _ & _ & Ht)]]; rewrite Ht in Hin.
  - apply list_elem_of_singleton in Hin. by subst ev.
  - rewrite !elem_of_cons, elem_of_nil in Hin.
    destruct Hin as [->|[->|[]]]; done.
  - rewrite !elem_of_cons in Hin. destruct Hin as [->|[->|Hin]]; [done..|].
    pose proof (engine_run_calls _ _ _ _ Hin) as Hev.
    unfold engine_run in Hin.
    destruct (dialect_rule L schemaJSON); cbn [fst] in Hin.
    + apply list_elem_of_singleton in Hin. subst ev.
      split; [done|apply canonical_not_null].
    + destruct ev; try done.
      apply validateUsingNewValidator_parses in Hin as [->| ->]; [by left|].
      right. apply canonical_not_null.
Qed.

(** The check when the conversion does not deliver a JSON document. *)
Lemma ValidateAgainstSingleSchema_Marshal_Err L values schemaJSON err :
  yaml_Marshal L values = Ret (Err err) →
  ValidateAgainstSingleSchema L values schemaJSON = ([call_yaml_Marshal], Ret (Some err)).
Proof.
  intros Hm. unfold ValidateAgainstSingleSchema, ValidateAgainstSingleSchema_body.
  by rewrite Hm, mbind_call_Ret.
Qed.

Lemma ValidateAgainstSingleSchema_Marshal_Panic L values schemaJSON r :
  yaml_Marshal L values = Panic r →
  ValidateAgainstSingleSchema L values schemaJSON =
  ([call_yaml_Marshal], Ret (Some (recovered r))).
Proof.
  intros Hm. unfold ValidateAgainstSingleSchema, ValidateAgainstSingleSchema_body.
  by rewrite Hm.
Qed.

Lemma ValidateAgainstSingleSchema_YAMLToJSON_Err L values schemaJSON valuesData err :
  yaml_Marshal L values = Ret (Ok valuesData) →
  yaml_YAMLToJSON L valuesData = Ret (Err err) →
  ValidateAgainstSingleSchema L values schemaJSON =
  ([call_yaml_Marshal; call_yaml_YAMLToJSON valuesData], Ret (Some err)).
Proof.
  intros Hm Hj. unfold ValidateAgainstSingleSchema, ValidateAgainstSingleSchema_body.
  by rewrite Hm, mbind_call_Ret, Hj, mbind_call_Ret.
Qed.

Lemma ValidateAgainstSingleSchema_YAMLToJSON_Panic L values schemaJSON valuesData r :
  yaml_Marshal L values = Ret (Ok valuesData) →
  yaml_YAMLToJSON L valuesData = Panic r →
  ValidateAgainstSingleSchema L values schemaJSON =
  ([call_yaml_Marshal; call_yaml_YAMLToJSON valuesData], Ret (Some (recovered r))).
Proof.
  intros Hm Hj. unfold ValidateAgainstSingleSchema, ValidateAgainstSingleSchema_body.
  by rewrite Hm, mbind_call_Ret, Hj.
Qed.

(** X3. When [yaml.Marshal] or [yaml.YAMLToJSON] returns an error, the check
    returns that error as it is without calling either engine.  On a tree
    whose children, at every level, all find their value subtree, the walk
    does not stop there: the error is the text of the node's own section
    and the children are validated after it. *)
Theorem conversion_failure_is_one_more_section L chrt values schemaJSON t err :
  conversion_failure L values = Some (t, err) →
  Schema chrt = Some schemaJSON →
  aligned chrt values = true →
  ValidateAgainstSingleSchema L values schemaJSON = (t, Ret (Some err))
  ∧ (∀ e, runs e t = false)
  ∧ ∃ children,
      sections L chrt values = (Name chrt, Error err) :: children
      ∧ ValidateAgainstSchema L chrt values =
        (checks L chrt values,
         Ret (Some (errors_New
           (Name chrt +:+ ":" +:+ LF +:+ Error err +:+ render children)))).
Proof.
  intros Hfail Hschema Hal. unfold conversion_failure in Hfail.
  assert (ValidateAgainstSingleSchema L values schemaJSON = (t, Ret (Some err))
          ∧ ∀ e, runs e t = false) as [Hrun Hnone].
  { destruct (yaml_Marshal L values) as [[d|e]|r] eqn:Hm; simplify_eq.
    - destruct (yaml_YAMLToJSON L d) as [[j|e]|r] eqn:Hj; simplify_eq.
      split; [by apply ValidateAgainstSingleSchema_YAMLToJSON_Err|by intros []].
    - split; [by apply ValidateAgainstSingleSchema_Marshal_Err|by intros []]. }
  split_and!; [done..|].
  eexists. split.
  - rewrite sections_eq. unfold own_section. rewrite Hschema, Hrun. reflexivity.
  - rewrite (ValidateAgainstSchema_aligned L chrt values Hal).
    rewrite (sections_eq L chrt values). unfold own_section.
    rewrite Hschema, Hrun. cbn [snd app report]. do 3 f_equal.
    change (render ((Name chrt, Error err) :: ?l))
      with (block (Name chrt, Error err) +:+ render l).
    unfold block. cbn [fst snd]. by rewrite !string_app_assoc.
Qed.

(** X4. On the modern path, when the schema parses but the values document
    does not, the check returns the parser's error at once: the schema is
    neither registered nor compiled and nothing is validated. *)
Theorem unparsable_values_end_the_modern_check
    L values schemaJSON valuesData valuesJSON schema err :
  yaml_Marshal L values = Ret (Ok valuesData) →
  yaml_YAMLToJSON L valuesData = Ret (Ok valuesJSON) →
  dialect_rule L schemaJSON = ModernEngine →
  newvalidator_UnmarshalJSON L schemaJSON = Ret (Ok schema) →
  newvalidator_UnmarshalJSON L (canonical valuesJSON) = Ret (Err err) →
  ValidateAgainstSingleSchema L values schemaJSON =
  ([call_yaml_Marshal; call_yaml_YAMLToJSON valuesData;
    call_newvalidator_UnmarshalJSON schemaJSON;
    call_newvalidator_UnmarshalJSON (canonical valuesJSON)],
   Ret (Some err)).
Proof.
  intros Hm Hj Hrule Hs Hv.
  rewrite (ValidateAgainstSingleSchema_modern _ _ _ _ _ Hm Hj Hrule).
  assert (dialect_rule L schemaJSON ≠ LegacyEngine) as H by congruence.
  rewrite early_return_iff_legacy in H.
  unfold validateUsingNewValidator. cbv zeta in *.
  destruct (String.eqb (partialSchema_Schema L schemaJSON) ""); [done|].
  destruct (url_Parse L (partialSchema_Schema L schemaJSON)) as [u|?]; [|done].
  apply not_true_is_false in H. rewrite H.
  by rewrite Hs, mbind_call_Ret, Hv, mbind_call_Ret.
Qed.

(** X10. For a schema of a legacy dialect the check does not depend on the
    modern engine: with any other implementation of it, the calls and the
    result are the same. *)
Theorem legacy_check_ignores_the_modern_engine L modern values schemaJSON :
  dialect_rule L schemaJSON = LegacyEngine →
  ValidateAgainstSingleSchema (with_newvalidator L modern) values schemaJSON
  = ValidateAgainstSingleSchema L values schemaJSON.
Proof.
  intros Hrule. set (L' := with_newvalidator L modern).
  assert (dialect_rule L' schemaJSON = LegacyEngine) as Hrule' by exact Hrule.
  destruct (yaml_Marshal L values) as [[d|e]|r] eqn:Hm.
  - destruct (yaml_YAMLToJSON L d) as [[j|e]|r] eqn:Hj.
    + rewrite (ValidateAgainstSingleSchema_legacy L' values _ d j Hm Hj Hrule').
      by rewrite (ValidateAgainstSingleSchema_legacy L values _ d j Hm Hj Hrule).
    + rewrite (ValidateAgainstSingleSchema_YAMLToJSON_Err L' values _ d e Hm Hj).
      by rewrite (ValidateAgainstSingleSchema_YAMLToJSON_Err L values _ d e Hm Hj).
    + rewrite (ValidateAgainstSingleSchema_YAMLToJSON_Panic L' values _ d r Hm Hj).
      by rewrite (ValidateAgainstSingleSchema_YAMLToJSON_Panic L values _ d r Hm Hj).
  - rewrite (ValidateAgainstSingleSchema_Marshal_Err L' values _ e Hm).
    by rewrite (ValidateAgainstSingleSchema_Marshal_Err L values _ e Hm).
  - rewrite (ValidateAgainstSingleSchema_Marshal_Panic L' values _ r Hm).
    by rewrite (ValidateAgainstSingleSchema_Marshal_Panic L values _ r Hm).
Qed.

(** X11. For a schema of any other declared dialect the check does not depend
    on the legacy engine: with any other [gojsonschema.Validate], the calls
    and the result are the same. *)
Theorem modern_check_ignores_the_legacy_engine L validate values schemaJSON :
  dialect_rule L schemaJSON = ModernEngine →
  ValidateAgainstSingleSchema (with_gojsonschema L validate) values schemaJSON
  = ValidateAgainstSingleSchema L values schemaJSON.
Proof.
  intros Hrule. set (L' := with_gojsonschema L validate).
  assert (dialect_rule L' schemaJSON = ModernEngine) as Hrule' by exact Hrule.
  destruct (yaml_Marshal L values) as [[d|e]|r] eqn:Hm.
  - destruct (yaml_YAMLToJSON L d) as [[j|e]|r] eqn:Hj.
    + rewrite (ValidateAgainstSingleSchema_modern L' values _ d j Hm Hj Hrule').
      by rewrite (ValidateAgainstSingleSchema_modern L values _ d j Hm Hj Hrule).
    + rewrite (ValidateAgainstSingleSchema_YAMLToJSON_Err L' values _ d e Hm Hj).
      by rewrite (ValidateAgainstSingleSchema_YAMLToJSON_Err L values _ d e Hm Hj).
    + rewrite (ValidateAgainstSingleSchema_YAMLToJSON_Panic L' values _ d r Hm Hj).
      by rewrite (ValidateAgainstSingleSchema_YAMLToJSON_Panic L values _ d r Hm Hj).
  - rewrite (ValidateAgainstSingleSchema_Marshal_Err L' values _ e Hm).
    by rewrite (ValidateAgainstSingleSchema_Marshal_Err L values _ e Hm).
  - rewrite (ValidateAgainstSingleSchema_Marshal_Panic L' values _ r Hm).
    by rewrite (ValidateAgainstSingleSchema_Marshal_Panic L values _ r Hm).
Qed.

(** ** Further properties of the tree walk *)

(** X1. The walk returns, with success or with a report, exactly on the trees
    whose children, at every level, all find a map under their name in the
    parent's values; on every other tree it panics. *)
Theorem walk_returns_iff_aligned L chrt values :
  (∃ res, (ValidateAgainstSchema L chrt values).2 = Ret res)
  ↔ aligned chrt values = true.
Proof.
  split.
  - intros [res Hret]. by apply (returns_aligned L chrt values res).
  - intros Hal. rewrite (ValidateAgainstSchema_aligned L chrt values Hal). eauto.
Qed.

(** X2. The walk returns success exactly when the tree is aligned and no
    node's own check returned an error, whatever the text of that error: a
    check that fails with an empty message still makes the walk fail. *)
Theorem walk_succeeds_iff_no_check_fails L chrt values :
  (ValidateAgainstSchema L chrt values).2 = Ret None
  ↔ aligned chrt values = true ∧ sections L chrt values = [].
Proof.
  split.
  - intros Hret. pose proof (returns_aligned L chrt values None Hret) as Hal.
    split; [done|]. rewrite (ValidateAgainstSchema_aligned L chrt values Hal) in Hret.
    cbn [snd] in Hret. by destruct (sections L chrt values).
  - intros [Hal Hnil].
    by rewrite (ValidateAgainstSchema_aligned L chrt values Hal), Hnil.
Qed.

Lemma range_Dependencies_agree (validate : Chart → Values → M (option error))
    (values1 values2 : Values) deps sb :
  (∀ subchart, subchart ∈ deps → values1 !! Name subchart = values2 !! Name subchart) →
  range_Dependencies validate values1 deps sb = range_Dependencies validate values2 deps sb.
Proof.
  revert sb. induction deps as [|subchart deps IH]; intros sb Hagree; [done|].
  cbn [range_Dependencies]. unfold assert_map.
  rewrite (Hagree subchart) by (by left).
  destruct (values2 !! Name subchart) as [[]|]; try done.
  rewrite !mbind_mret.
  destruct (validate subchart m) as [t [err|r]]; [|done].
  rewrite !mbind_Ret. rewrite IH; [done|]. intros c Hc. apply Hagree. by right.
Qed.

(** X7. A node without a schema reads its values only under the names of its
    dependencies: two values maps that agree there give the same calls and
    the same outcome, whatever else they hold. *)
Theorem schemaless_node_reads_only_its_dependencies L chrt values1 values2 :
  Schema chrt = None →
  (∀ subchart, subchart ∈ Dependencies chrt →
     values1 !! Name subchart = values2 !! Name subchart) →
  ValidateAgainstSchema L chrt values1 = ValidateAgainstSchema L chrt values2.
Proof.
  intros Hschema Hagree. rewrite !ValidateAgainstSchema_eq, Hschema.
  rewrite !mbind_mret.
  by rewrite (range_Dependencies_agree _ values1 values2 _ _ Hagree).
Qed.

Lemma range_Dependencies_prefix L values before rest sb :
  all_aligned values before = true →
  range_Dependencies (ValidateAgainstSchema L) values (before ++ rest) sb =
  (flat_map (fun subchart =>
               match scoped values subchart with
               | Some m => checks L subchart m
               | None => []
               end) before
   ++ (range_Dependencies (ValidateAgainstSchema L) values rest
         (sb +:+ render
            (flat_map (fun subchart =>
                         match scoped values subchart with
                         | Some m => sections L subchart m
                         | None => []
                         end) before))).1,
   (range_Dependencies (ValidateAgainstSchema L) values rest
      (sb +:+ render
         (flat_map (fun subchart =>
                      match scoped values subchart with
                      | Some m => sections L subchart m
                      | None => []
                      end) before))).2).
Proof.
  revert sb. unfold all_aligned.
  induction before as [|subchart before IH]; intros sb Hal.
  - cbn. rewrite string_app_nil_r. by destruct (range_Dependencies _ _ _ _).
  - cbn [forallb] in Hal. apply andb_true_iff in Hal as [Hc Hbefore].
    destruct (scoped values subchart) as [m|] eqn:Hm; [|done].
    cbn [app range_Dependencies flat_map]. rewrite Hm.
    rewrite (assert_map_scoped _ _ _ Hm), mbind_Ret.
    rewrite (ValidateAgainstSchema_aligned L subchart m Hc), mbind_Ret.
    rewrite append_report, (IH _ Hbefore). cbn [fst snd].
    by rewrite render_app, string_app_assoc, <- app_assoc.
Qed.

(** X8. When the first dependency, in order, that finds no map under its name
    comes after dependencies that are all in order, the walk first makes the
    node's own check and the checks of those earlier subtrees, and then
    panics with the value found under the name (the nil interface when the
    key is missing): what the earlier checks reported is lost, and the later
    dependencies are not visited. *)
Theorem first_mismatch_panics_after_the_earlier_checks
    L chrt values before subchart after :
  Dependencies chrt = before ++ subchart :: after →
  all_aligned values before = true →
  scoped values subchart = None →
  ValidateAgainstSchema L chrt values =
  (own_calls L chrt values ++
   flat_map (fun earlier =>
               match scoped values earlier with
               | Some m => checks L earlier m
               | None => []
               end) before,
   Panic (TypeAssertionError (default VNil (values !! Name subchart)))).
Proof.
  intros Hdeps Hbefore Hnone.
  rewrite ValidateAgainstSchema_eq, own_check_eq, mbind_Ret, Hdeps.
  rewrite (range_Dependencies_prefix L values before _ _ Hbefore).
  cbn [range_Dependencies fst snd].
  assert (assert_map values (Name subchart)
          = ([], Panic (TypeAssertionError (default VNil (values !! Name subchart)))))
    as ->.
  { unfold scoped in Hnone. unfold assert_map.
    by destruct (values !! Name subchart) as [[]|]. }
  rewrite !mbind_Panic. cbn [fst snd]. by rewrite app_nil_r.
Qed.

Lemma marshals_app (t1 t2 : list event) :
  marshals (t1 ++ t2) = marshals t1 + marshals t2.
Proof.
  unfold marshals. induction t1 as [|ev t1 IH]; [done|].
  cbn [app map]. cbn. rewrite IH. lia.
Qed.

Lemma marshals_engine_calls (t : list event) :
  (∀ ev, ev ∈ t → ∃ e, engine_of ev = Some e) → marshals t = 0.
Proof.
  unfold marshals. induction t as [|ev t IH]; intros Hall; [done|].
  cbn. rewrite IH by (intros ev' Hin; apply Hall; by right).
  destruct (Hall ev) as [e He]; [by left|]. by destruct ev.
Qed.

Lemma marshals_single_check L values schemaJSON :
  marshals (ValidateAgainstSingleSchema L values schemaJSON).1 = 1.
Proof.
  destruct (ValidateAgainstSingleSchema_calls L values schemaJSON)
    as [Ht|[[d Ht]|(d & j & _ & _ & Ht)]]; rewrite Ht; [done..|].
  change (1 + (0 + marshals (engine_run L schemaJSON (canonical j)).1) = 1).
  rewrite marshals_engine_calls; [done|].
  intros ev Hin. exists (dialect_rule L schemaJSON). by apply engine_run_calls in Hin.
Qed.

Lemma marshals_checks L chrt :
  ∀ values, aligned chrt values = true →
            marshals (checks L chrt values) = schema_nodes chrt.
Proof.
  induction chrt as [name schema deps IH] using Chart_ind'. intros values Hal.
  rewrite checks_eq, marshals_app. rewrite aligned_eq in Hal.
  cbn [Dependencies Schema schema_nodes] in *. f_equal.
  { unfold own_calls. cbn [Schema].
    destruct schema as [schema|]; [apply marshals_single_check|done]. }
  induction IH as [|subchart deps Hsub _ IHdeps]; [done|].
  cbn [forallb] in Hal. apply andb_true_iff in Hal as [Hc Hdeps].
  destruct (scoped values subchart) as [m|] eqn:Hm; [|done].
  cbn [flat_map map]. rewrite Hm, marshals_app, (Hsub m Hc), (IHdeps Hdeps).
  done.
Qed.

(** X9. On a tree whose children all find their value subtree, the walk
    converts values once for every node that carries a schema document (an
    empty document counts, a nil one does not) and never for a node without
    one: the number of calls of [yaml.Marshal] is the number of such nodes. *)
Theorem values_are_marshalled_once_per_schema_node L chrt values :
  aligned chrt values = true →
  marshals (ValidateAgainstSchema L chrt values).1 = schema_nodes chrt.
Proof.
  intros Hal. rewrite (ValidateAgainstSchema_aligned L chrt values Hal).
  by apply marshals_checks.
Qed.

(** X12. A panic inside a node's check does not stop the walk either: on a
    tree whose children all find their value subtree, the node's section is
    its name with "unable to validate schema: " and the rendering of the
    panic, and the children are validated after it. *)
Theorem recovered_panic_is_one_more_section L chrt values schemaJSON t r :
  Schema chrt = Some schemaJSON →
  aligned chrt values = true →
  ValidateAgainstSingleSchema_body L values schemaJSON = (t, Panic r) →
  ∃ children,
    sections L chrt values =
      (Name chrt, "unable to validate schema: " +:+ Sprintf_s r) :: children
    ∧ ValidateAgainstSchema L chrt values =
      (checks L chrt values,
       Ret (Some (errors_New
         (Name chrt +:+ ":" +:+ LF +:+
          ("unable to validate schema: " +:+ Sprintf_s r) +:+ render children)))).
Proof.
  intros Hschema Hal Hpanic.
  assert (ValidateAgainstSingleSchema L values schemaJSON
          = (t, Ret (Some (recovered r)))) as Hrun.
  { unfold ValidateAgainstSingleSchema. by rewrite Hpanic. }
  eexists. split.
  - rewrite sections_eq. unfold own_section. rewrite Hschema, Hrun. reflexivity.
  - rewrite (ValidateAgainstSchema_aligned L chrt values Hal).
    rewrite (sections_eq L chrt values). unfold own_section.
    rewrite Hschema, Hrun. cbn [snd app report]. do 3 f_equal.
    change (render ((Name chrt, Error (recovered r)) :: ?l))
      with (block (Name chrt, Error (recovered r)) +:+ render l).
    unfold block. cbn [fst snd recovered Error]. by rewrite !string_app_assoc.
Qed.

(** ** The further properties on concrete charts *)

(** X3 at a chart with a dependency, whose own values hold an empty key that
    the stricter stand-in refuses to marshal: the refusal is the chart's
    section and the dependency's section follows. *)
Lemma refused_values_are_reported :
  conversion_failure Demo.strict_yaml Demo.values_guarded
    = Some ([call_yaml_Marshal], Demo.marshal_error)
  ∧ Schema Demo.guarded = Some Demo.schema_object
  ∧ aligned Demo.guarded Demo.values_guarded = true
  ∧ ValidateAgainstSingleSchema Demo.strict_yaml Demo.values_guarded
      Demo.schema_object
    = ([call_yaml_Marshal], Ret (Some Demo.marshal_error))
  ∧ sections Demo.strict_yaml Demo.guarded Demo.values_guarded
    = [("guarded", "error marshaling into JSON");
       ("c1", "- (root): a is required" +:+ LF)]
  ∧ (ValidateAgainstSchema Demo.strict_yaml Demo.guarded Demo.values_guarded).2
    = Ret (Some (errors_New
        ("guarded:" +:+ LF +:+ "error marshaling into JSON" +:+ Demo.text_c1))).
Proof.
  assert (conversion_failure Demo.strict_yaml Demo.values_guarded
          = Some ([call_yaml_Marshal], Demo.marshal_error)) as Hfail
    by (vm_compute; reflexivity).
  assert (Schema Demo.guarded = Some Demo.schema_object) as Hschema by reflexivity.
  assert (aligned Demo.guarded Demo.values_guarded = true) as Hal
    by (vm_compute; reflexivity).
  split; [exact Hfail|split; [exact Hschema|split; [exact Hal|]]].
  destruct (conversion_failure_is_one_more_section
              Demo.strict_yaml Demo.guarded _ _ _ _ Hfail Hschema Hal)
    as (Hrun & _ & children & Hsecs & Hwalk).
  split; [exact Hrun|].
  assert (children = [("c1", "- (root): a is required" +:+ LF)]) as Hchildren.
  { assert (sections Demo.strict_yaml Demo.guarded Demo.values_guarded
            = [("guarded", "error marshaling into JSON");
               ("c1", "- (root): a is required" +:+ LF)]) as Hall
      by (vm_compute; reflexivity).
    rewrite Hall in Hsecs. injection Hsecs as Hc. symmetry. exact Hc. }
  split.
  - rewrite Hsecs, Hchildren. reflexivity.
  - rewrite Hwalk, Hchildren. vm_compute. reflexivity.
Defined.

(** X4 at a conversion that hands back a YAML sequence as it is. *)
Lemma values_that_are_no_json_end_the_check :
  yaml_Marshal Demo.odd_yaml Demo.values_a = Ret (Ok Demo.yaml_a)
  ∧ yaml_YAMLToJSON Demo.odd_yaml Demo.yaml_a = Ret (Ok (bytes_of "- 1"))
  ∧ dialect_rule Demo.odd_yaml Demo.schema_2020_12 = ModernEngine
  ∧ newvalidator_UnmarshalJSON Demo.odd_yaml Demo.schema_2020_12
    = Ret (Ok (Demo.text Demo.schema_2020_12))
  ∧ newvalidator_UnmarshalJSON Demo.odd_yaml (canonical (bytes_of "- 1"))
    = Ret (Err Demo.not_json)
  ∧ ValidateAgainstSingleSchema Demo.odd_yaml Demo.values_a Demo.schema_2020_12 =
    ([call_yaml_Marshal; call_yaml_YAMLToJSON Demo.yaml_a;
      call_newvalidator_UnmarshalJSON Demo.schema_2020_12;
      call_newvalidator_UnmarshalJSON (canonical (bytes_of "- 1"))],
     Ret (Some Demo.not_json)).
Proof.
  assert (yaml_Marshal Demo.odd_yaml Demo.values_a = Ret (Ok Demo.yaml_a)) as Hm
    by (vm_compute; reflexivity).
  assert (yaml_YAMLToJSON Demo.odd_yaml Demo.yaml_a = Ret (Ok (bytes_of "- 1"))) as Hj
    by reflexivity.
  assert (dialect_rule Demo.odd_yaml Demo.schema_2020_12 = ModernEngine) as Hrule
    by (vm_compute; reflexivity).
  assert (newvalidator_UnmarshalJSON Demo.odd_yaml Demo.schema_2020_12
          = Ret (Ok (Demo.text Demo.schema_2020_12))) as Hs
    by (vm_compute; reflexivity).
  assert (newvalidator_UnmarshalJSON Demo.odd_yaml (canonical (bytes_of "- 1"))
          = Ret (Err Demo.not_json)) as Hv
    by (vm_compute; reflexivity).
  split; [exact Hm|split; [exact Hj|split; [exact Hrule|split; [exact Hs|split; [exact Hv|]]]]].
  exact (unparsable_values_end_the_modern_check
           Demo.odd_yaml _ _ _ _ _ _ Hm Hj Hrule Hs Hv).
Defined.

(** X5 at a draft-07 schema: the engine that runs is the legacy one. *)
Lemma draft07_runs_the_legacy_engine :
  runs LegacyEngine
    (ValidateAgainstSingleSchema Demo.libs Demo.values_a Demo.schema_draft07).1 = true
  ∧ LegacyEngine = dialect_rule Demo.libs Demo.schema_draft07.
Proof.
  assert (runs LegacyEngine
            (ValidateAgainstSingleSchema Demo.libs Demo.values_a
               Demo.schema_draft07).1 = true) as Hruns
    by (vm_compute; reflexivity).
  split; [exact Hruns|].
  exact (only_the_selected_engine_is_called Demo.libs _ _ _ Hruns).
Defined.

(** X6 at empty values: the legacy engine is handed [{}]. *)
Lemma empty_values_reach_the_engine_as_object :
  let ev := call_gojsonschema_Validate Demo.schema_object (bytes_of "{}") in
  ev ∈ (ValidateAgainstSingleSchema Demo.libs ∅ Demo.schema_object).1
  ∧ Demo.schema_object = Demo.schema_object ∧ bytes_of "{}" ≠ bytes_of "null".
Proof.
  intros ev.
  assert (ev ∈ (ValidateAgainstSingleSchema Demo.libs ∅ Demo.schema_object).1) as Hin.
  { assert ((ValidateAgainstSingleSchema Demo.libs ∅ Demo.schema_object).1
            = [call_yaml_Marshal; call_yaml_YAMLToJSON Demo.yaml_null; ev]) as ->
      by (vm_compute; reflexivity).
    apply list_elem_of_In. right. right. left. reflexivity. }
  split; [exact Hin|].
  exact (engines_never_see_null Demo.libs ∅ Demo.schema_object ev Hin).
Defined.

(** X7 at the chart without schemas: other keys of the values do not matter. *)
Lemma other_keys_do_not_matter :
  let values2 : Values := {[ "db" := VMap ∅ ]} in
  Schema Demo.bare = None
  ∧ (∀ subchart, subchart ∈ Dependencies Demo.bare →
       Demo.values_app !! Name subchart = values2 !! Name subchart)
  ∧ ValidateAgainstSchema Demo.libs Demo.bare Demo.values_app
    = ValidateAgainstSchema Demo.libs Demo.bare values2.
Proof.
  intros values2.
  assert (Schema Demo.bare = None) as Hschema by reflexivity.
  assert (∀ subchart, subchart ∈ Dependencies Demo.bare →
            Demo.values_app !! Name subchart = values2 !! Name subchart) as Hagree.
  { intros subchart Hin. apply list_elem_of_singleton in Hin. subst subchart.
    vm_compute. reflexivity. }
  split; [exact Hschema|split; [exact Hagree|]].
  exact (schemaless_node_reads_only_its_dependencies
           Demo.libs Demo.bare _ _ Hschema Hagree).
Defined.

(** X8 at a chart whose second dependency has no entry in the values. *)
Lemma missing_cache_panics_after_c1 :
  let cache := mkChart "cache" None [] in
  Dependencies Demo.stack = [Demo.c1] ++ cache :: [Demo.c2]
  ∧ all_aligned Demo.values_stack [Demo.c1] = true
  ∧ scoped Demo.values_stack cache = None
  ∧ (ValidateAgainstSchema Demo.libs Demo.stack Demo.values_stack).2
    = Panic (TypeAssertionError VNil).
Proof.
  intros cache.
  assert (Dependencies Demo.stack = [Demo.c1] ++ cache :: [Demo.c2]) as Hdeps
    by reflexivity.
  assert (all_aligned Demo.values_stack [Demo.c1] = true) as Hbefore
    by (vm_compute; reflexivity).
  assert (scoped Demo.values_stack cache = None) as Hnone
    by (vm_compute; reflexivity).
  split; [exact Hdeps|split; [exact Hbefore|split; [exact Hnone|]]].
  rewrite (first_mismatch_panics_after_the_earlier_checks
             Demo.libs Demo.stack Demo.values_stack _ _ _ Hdeps Hbefore Hnone).
  vm_compute. reflexivity.
Defined.

(** X9 at the parent with two children: three conversions. *)
Lemma parent_marshals_three_times :
  aligned Demo.parent Demo.values_parent = true
  ∧ marshals (ValidateAgainstSchema Demo.libs Demo.parent Demo.values_parent).1 = 3.
Proof.
  assert (aligned Demo.parent Demo.values_parent = true) as Hal
    by (vm_compute; reflexivity).
  split; [exact Hal|].
  exact (values_are_marshalled_once_per_schema_node Demo.libs _ _ Hal).
Defined.

(** X10 at a draft-07 schema, with a modern engine that panics on any call. *)
Lemma draft07_never_reaches_a_panicking_modern_engine :
  dialect_rule Demo.libs Demo.schema_draft07 = LegacyEngine
  ∧ ValidateAgainstSingleSchema (with_newvalidator Demo.libs Demo.panicking)
      Demo.values_a Demo.schema_draft07
    = ValidateAgainstSingleSchema Demo.libs Demo.values_a Demo.schema_draft07.
Proof.
  assert (dialect_rule Demo.libs Demo.schema_draft07 = LegacyEngine) as Hrule
    by (vm_compute; reflexivity).
  split; [exact Hrule|].
  exact (legacy_check_ignores_the_modern_engine Demo.libs Demo.panicking _ _ Hrule).
Defined.

(** X11 at a 2020-12 schema, with a legacy engine that panics on any call. *)
Lemma draft2020_never_reaches_a_panicking_legacy_engine :
  dialect_rule Demo.libs Demo.schema_2020_12 = ModernEngine
  ∧ ValidateAgainstSingleSchema Demo.no_legacy Demo.values_a Demo.schema_2020_12
    = ValidateAgainstSingleSchema Demo.libs Demo.values_a Demo.schema_2020_12.
Proof.
  assert (dialect_rule Demo.libs Demo.schema_2020_12 = ModernEngine) as Hrule
    by (vm_compute; reflexivity).
  split; [exact Hrule|].
  exact (modern_check_ignores_the_legacy_engine Demo.libs _ _ _ Hrule).
Defined.

(** X12 at a chart on whose own schema the legacy engine panics. *)
Lemma panic_of_the_parent_is_reported_before_c1 :
  Schema Demo.faulty = Some Demo.schema_ref
  ∧ aligned Demo.faulty Demo.values_faulty = true
  ∧ (ValidateAgainstSingleSchema_body Demo.libs Demo.values_faulty Demo.schema_ref).2
    = Panic Demo.nil_dereference
  ∧ ∃ children,
      sections Demo.libs Demo.faulty Demo.values_faulty =
      ("faulty", "unable to validate schema: " +:+ Sprintf_s Demo.nil_dereference)
        :: children.
Proof.
  assert (Schema Demo.faulty = Some Demo.schema_ref) as Hschema by reflexivity.
  assert (aligned Demo.faulty Demo.values_faulty = true) as Hal
    by (vm_compute; reflexivity).
  assert (ValidateAgainstSingleSchema_body Demo.libs Demo.values_faulty Demo.schema_ref
          = ((ValidateAgainstSingleSchema_body Demo.libs Demo.values_faulty
                Demo.schema_ref).1, Panic Demo.nil_dereference)) as Hpanic
    by (vm_compute; reflexivity).
  split; [exact Hschema|split; [exact Hal|split; [by rewrite Hpanic|]]].
  destruct (recovered_panic_is_one_more_section
              Demo.libs Demo.faulty _ _ _ _ Hschema Hal Hpanic)
    as (children & Hsecs & _).
  exists children. exact Hsecs.
Defined.
